(** * eggd_MetricsOutput_editor: process_metrics_file.py

    A shallow embedding of [src/resources/home/dnanexus/process_metrics_file.py]
    and the properties of its passes: [move_rows], [mark_false],
    [mark_contamination_metrics], [mark_other_metrics] and the loader
    [tsv_to_excel] with its field coercion.

    Conventions.
    - A cell value is what the pandas frame [self.df] holds: a number
      (Python [int] or [float]), a [str], or [None].
    - Numbers are compared the way Python compares them: exactly, with
      every comparison against [nan] false.  A finite number is a
      rational; the rounding performed when a text is read as a float is a
      parameter of the loader.
    - A text of the loader is the list of its code points; what the
      loader takes from its platform (the Unicode tables, the rounding,
      the digit limit of [int], the outcome of the save) is a [platform].
    - An exception is a value of [exn]; every method of class [Excel] is a
      state transformer over the attributes of [self]. *)

From Stdlib Require Import ZArith QArith Qround Qabs String Ascii List Bool Lia.
From stdpp Require Import base option list gmap sets.

Local Open Scope string_scope.
Local Open Scope list_scope.
Local Open Scope nat_scope.

(** ** Python values *)

Module Py.

(** Numbers: finite values, the two infinities and [nan]. *)
Inductive num : Type :=
| Fin (q : Q)
| PInf
| NInf
| NaN.

Definition Qlt_bool (x y : Q) : bool :=
  (Qnum x * QDen y <? Qnum y * QDen x)%Z.

(** [a < b] on numbers. *)
Definition num_ltb (a b : num) : bool :=
  match a, b with
  | NaN, _ | _, NaN => false
  | Fin x, Fin y => Qlt_bool x y
  | NInf, NInf => false
  | NInf, _ => true
  | _, NInf => false
  | PInf, _ => false
  | Fin _, PInf => true
  end.

(** [a == b] on numbers. *)
Definition num_eqb (a b : num) : bool :=
  match a, b with
  | Fin x, Fin y => Qeq_bool x y
  | PInf, PInf | NInf, NInf => true
  | _, _ => false
  end.

(** [a <= b] on numbers. *)
Definition num_leb (a b : num) : bool := num_ltb a b || num_eqb a b.

(** The values a cell of the frame can hold. *)
Inductive value : Type :=
| Num (x : num)
| Str (s : string)
| NoneV.

Inductive exn : Type :=
| TypeError
| KeyError
| ValueError
| UnboundLocalError.

Inductive result (A : Type) : Type :=
| Ok (a : A)
| Raise (e : exn).
Arguments Ok {A} a.
Arguments Raise {A} e.

(** [a == b]: never raises; values of different kinds are unequal. *)
Definition op_eq (a b : value) : bool :=
  match a, b with
  | Num x, Num y => num_eqb x y
  | Str s, Str t => String.eqb s t
  | NoneV, NoneV => true
  | _, _ => false
  end.

Definition op_ne (a b : value) : bool := negb (op_eq a b).

(** [a < b]: numbers with numbers, text with text (lexicographic);
    anything else is a [TypeError]. *)
Definition op_lt (a b : value) : result bool :=
  match a, b with
  | Num x, Num y => Ok (num_ltb x y)
  | Str s, Str t => Ok (String.ltb s t)
  | _, _ => Raise TypeError
  end.

(** [a > b]. *)
Definition op_gt (a b : value) : result bool :=
  match a, b with
  | Num x, Num y => Ok (num_ltb y x)
  | Str s, Str t => Ok (String.ltb t s)
  | _, _ => Raise TypeError
  end.

Definition is_num (v : value) : Prop := ∃ x, v = Num x.

End Py.

Import Py.

Definition NA : value := Str "NA".

(** ** The pandas frame [self.df] *)

(** Row-major table.  [pd.DataFrame] pads short rows with [None], so the
    number of columns is the length of the longest row. *)
Definition frame : Type := list (list value).

Definition columns (df : frame) : nat :=
  foldr (λ row n, Nat.max (length row) n) 0 df.

(** [df.loc[row][col]]: a [KeyError] outside the frame. *)
Definition loc (df : frame) (row col : nat) : result value :=
  match df !! row with
  | None => Raise KeyError
  | Some cells =>
      if decide (col < columns df) then Ok (default NoneV (cells !! col))
      else Raise KeyError
  end.

(** [df.stack()] drops the missing entries ([None] and [nan]). *)
Definition notna (v : value) : bool :=
  match v with
  | NoneV | Num NaN => false
  | _ => true
  end.

Fixpoint stack_row (r c : nat) (cells : list value) : list (nat * nat * value) :=
  match cells with
  | [] => []
  | v :: cells' =>
      (if notna v then [(r, c, v)] else []) ++ stack_row r (S c) cells'
  end.

Fixpoint stack_from (r : nat) (df : frame) : list (nat * nat * value) :=
  match df with
  | [] => []
  | cells :: df' => stack_row r 0 cells ++ stack_from (S r) df'
  end.

Definition stack (df : frame) : list (nat * nat * value) := stack_from 0 df.

(** [df.stack().index[df.stack() == element]]: the positions, in row-major
    order, of the cells equal to [element]. *)
Definition index_of (df : frame) (element : string) : list (nat * nat) :=
  map fst (List.filter (λ e, Py.op_eq (snd e) (Str element)) (stack df)).

(** ** Exceptions and the state of an [Excel] object *)

Global Instance result_ret : MRet result := λ A a, Ok a.
Global Instance result_bind : MBind result := λ A B f m,
  match m with
  | Ok a => f a
  | Raise e => Raise e
  end.
Global Instance result_fmap : FMap result := λ A B f m,
  match m with
  | Ok a => Ok (f a)
  | Raise e => Raise e
  end.

(** The worksheet, as the table [ws.values] yields: [max_row] rows of
    [max_column] values, [None] for an empty cell. *)
Definition sheet : Type := list (list value).

(** The attributes of [self]: the worksheet [self.ws], the frame [self.df],
    the cells given the red fill and font (column, row; both 1-based), and
    whether the file [self.file] is on disk. *)
Record Excel : Type := MkExcel {
  ws : sheet;
  df : frame;
  highlighted : gset (nat * nat);
  file_exists : bool
}.

Definition set_ws (s : sheet) (self : Excel) : Excel :=
  MkExcel s (df self) (highlighted self) (file_exists self).
Definition set_df (f : frame) (self : Excel) : Excel :=
  MkExcel (ws self) f (highlighted self) (file_exists self).
Definition add_highlight (p : nat * nat) (self : Excel) : Excel :=
  MkExcel (ws self) (df self) ({[ p ]} ∪ highlighted self) (file_exists self).
Definition set_file_exists (b : bool) (self : Excel) : Excel :=
  MkExcel (ws self) (df self) (highlighted self) b.

(** A method: it returns or raises, and leaves the object in a new state
    either way. *)
Definition M (A : Type) : Type := Excel → result A * Excel.

Global Instance M_ret : MRet M := λ A a self, (Ok a, self).
Global Instance M_bind : MBind M := λ A B f m self,
  match m self with
  | (Ok a, self') => f a self'
  | (Raise e, self') => (Raise e, self')
  end.

Definition gets {A} (f : Excel → A) : M A := λ self, (Ok (f self), self).
Definition modify_self (f : Excel → Excel) : M unit := λ self, (Ok tt, f self).
Definition lift {A} (r : result A) : M A := λ self, (r, self).
Definition raise {A} (e : exn) : M A := lift (Raise e).

(** [for x in xs: body] *)
Fixpoint for_each {A} (xs : list A) (body : A → M unit) : M unit :=
  match xs with
  | [] => mret tt
  | x :: xs' => body x ;; for_each xs' body
  end.

(** [range(a, b)] *)
Definition range (a b : nat) : list nat := seq a (b - a).

(** [openpyxl.utils.get_column_letter]: the letters of a column index, a
    [ValueError] below 1.  A column letter is represented by the index it
    spells (A = 1, B = 2, ...); the upper bound of three letters, 18278, is
    one that no worksheet column exceeds. *)
Definition get_column_letter (col_idx : Z) : result nat :=
  if (1 <=? col_idx)%Z then Ok (Z.to_nat col_idx) else Raise ValueError.

(** [Excel.highlight_cell] *)
Definition highlight_cell (xl_col xl_row : nat) : M unit :=
  modify_self (add_highlight (xl_col, xl_row)).

(** ** [Excel.mark_other_metrics] *)

Definition metrics_to_find : list string :=
  [ "MEDIAN_INSERT_SIZE (bp)";
    "MEDIAN_EXON_COVERAGE (Count)";
    "PCT_EXON_50X (%)";
    "USABLE_MSI_SITES (Count)";
    "COVERAGE_MAD (Count)";
    "MEDIAN_BIN_COUNT_CNV_TARGET (Count)";
    "MEDIAN_CV_GENE_500X (%)";
    "TOTAL_ON_TARGET_READS (Count)";
    "MEDIAN_INSERT_SIZE (Count)" ].

(** The body of [for idx in indices]. *)
Definition other_metric_cell (sample_col_index : nat) (idx : nat * nat) : M unit :=
  frame ← gets df;
  let row := idx.1 in
  LSL ← lift (loc frame row (idx.2 + 1));
  USL ← lift (loc frame row (idx.2 + 2));
  sample_value ← lift (loc frame row sample_col_index);
  if Py.op_eq LSL NA && Py.op_eq USL NA then mret tt
  else if Py.op_eq LSL NA && Py.op_ne sample_value NA then
    above ← lift (Py.op_gt sample_value USL);
    if (above : bool) then
      let xl_row := idx.1 + 1 in
      xl_col ← lift (get_column_letter (Z.of_nat (sample_col_index + 1)));
      highlight_cell xl_col xl_row
    else mret tt
  else if Py.op_eq USL NA && Py.op_ne sample_value NA then
    below ← lift (Py.op_lt sample_value LSL);
    if (below : bool) then
      let xl_row := idx.1 + 1 in
      xl_col ← lift (get_column_letter (Z.of_nat (sample_col_index + 1)));
      highlight_cell xl_col xl_row
    else mret tt
  else
    if Py.op_ne sample_value NA then
      below ← lift (Py.op_lt sample_value LSL);
      outside ← (if (below : bool) then mret true
                 else lift (Py.op_gt sample_value USL));
      if (outside : bool) then
        let xl_row := idx.1 + 1 in
        xl_col ← lift (get_column_letter (Z.of_nat (sample_col_index + 1)));
        highlight_cell xl_col xl_row
      else mret tt
    else mret tt.

Definition mark_other_metrics : M unit :=
  ncols ← gets (λ self, columns (df self));
  for_each (range 3 ncols) (λ sample_col_index,
    for_each metrics_to_find (λ metric,
      indices ← gets (λ self, index_of (df self) metric);
      for_each indices (other_metric_cell sample_col_index))).

(** ** [Excel.mark_contamination_metrics] *)

Definition elements_to_find : list string :=
  [ "CONTAMINATION_SCORE (NA)"; "CONTAMINATION_P_VALUE (NA)" ].

(** The local variables of the method that are read before they are
    written in the same iteration; [None] while unbound. *)
Record locals : Type := MkLocals {
  value_to_compare : option value;
  LSL : option value;
  USL : option value;
  sample_to_highlight : option bool
}.

Definition unbound : locals := MkLocals None None None None.

Definition set_value_to_compare (v : value) (l : locals) : locals :=
  MkLocals (Some v) (LSL l) (USL l) (sample_to_highlight l).
Definition set_limits (lsl usl : value) (l : locals) : locals :=
  MkLocals (value_to_compare l) (Some lsl) (Some usl) (sample_to_highlight l).
Definition set_sample_to_highlight (b : bool) (l : locals) : locals :=
  MkLocals (value_to_compare l) (LSL l) (USL l) (Some b).

(** Reading a local variable. *)
Definition read {A} (x : option A) : result A :=
  match x with
  | Some a => Ok a
  | None => Raise UnboundLocalError
  end.

(** The body of [for idx in indices]. *)
Definition read_metric (frame : frame) (sample_col_index : nat)
    (l : locals) (idx : nat * nat) : result locals :=
  let row := idx.1 in
  let first_column := idx.2 in
  let LSL_column_index := first_column + 1 in
  let USL_column_index := first_column + 2 in
  v ← loc frame row sample_col_index;
  let l := set_value_to_compare v l in
  if decide (first_column = 0) then
    lsl ← loc frame row LSL_column_index;
    usl ← loc frame row USL_column_index;
    mret (set_limits lsl usl l)
  else mret l.

Fixpoint for_indices (frame : frame) (sample_col_index : nat)
    (indices : list (nat * nat)) (l : locals) : result locals :=
  match indices with
  | [] => mret l
  | idx :: indices' =>
      l' ← read_metric frame sample_col_index l idx;
      for_indices frame sample_col_index indices' l'
  end.

(** The [if]/[elif]/[else] that follows the inner loop; the boolean tells
    whether the [break] was taken. *)
Definition judge (l : locals) : result (locals * bool) :=
  v ← read (value_to_compare l);
  if Py.op_eq v NA then mret (set_sample_to_highlight false l, false)
  else
    lsl ← read (LSL l);
    below ← Py.op_lt v lsl;
    outside ← (if (below : bool) then mret true
               else usl ← read (USL l); Py.op_gt v usl);
    if (outside : bool) then mret (set_sample_to_highlight true l, false)
    else mret (set_sample_to_highlight false l, true).

(** [for element in elements_to_find], with its [break]. *)
Fixpoint for_elements (frame : frame) (sample_col_index : nat)
    (elements : list string) (l : locals) : result locals :=
  match elements with
  | [] => mret l
  | element :: elements' =>
      l1 ← for_indices frame sample_col_index (index_of frame element) l;
      r ← judge l1;
      if (r.2 : bool) then mret r.1
      else for_elements frame sample_col_index elements' r.1
  end.

(** The body of [for sample_col_index in range(3, len(self.df.columns))]. *)
Definition contamination_column (sample_col_index : nat) (l : locals) : M locals :=
  frame ← gets df;
  l' ← lift (for_elements frame sample_col_index elements_to_find l);
  flag ← lift (read (sample_to_highlight l'));
  (if (flag : bool) then
     for_each elements_to_find (λ element,
       indices ← gets (λ self, index_of (df self) element);
       for_each indices (λ idx,
         let xl_row := idx.1 + 1 in
         xl_col ← lift (get_column_letter (Z.of_nat (sample_col_index + 1)));
         highlight_cell xl_col xl_row))
   else mret tt);;
  mret l'.

(** The outer loop; the local variables live across its iterations. *)
Fixpoint for_samples (cols : list nat) (l : locals) : M locals :=
  match cols with
  | [] => mret l
  | sample_col_index :: cols' =>
      l' ← contamination_column sample_col_index l;
      for_samples cols' l'
  end.

Definition mark_contamination_metrics : M unit :=
  ncols ← gets (λ self, columns (df self));
  for_samples (range 3 ncols) unbound;;
  mret tt.

(** ** [Excel.mark_false] *)

(** [os.remove(self.file)] *)
Definition remove_file : M unit := modify_self (set_file_exists false).

Definition mark_false : M unit :=
  false_cells_indices ← gets (λ self, index_of (df self) "FALSE");
  for_each false_cells_indices (λ idx,
    let xl_row := idx.1 + 1 in
    if decide (xl_row ≠ 17) then
      remove_file;; raise TypeError
    else
      xl_col ← lift (get_column_letter (Z.of_nat (idx.2 + 1)));
      highlight_cell xl_col xl_row).

(** ** [Excel.move_rows] *)

(** [ws.max_row] and [ws.max_column]: 1 for an empty worksheet. *)
Definition sheet_max_row (s : sheet) : nat := Nat.max 1 (length s).
Definition max_column (s : sheet) : nat := Nat.max 1 (columns s).

(** The value of the cell at a 1-based row and column; [None] where the
    worksheet has no cell. *)
Definition cell_value (s : sheet) (row col : nat) : value :=
  match row, col with
  | S r, S c => default NoneV (s !! r ≫= (.!! c))
  | _, _ => NoneV
  end.

(** [openpyxl.worksheet.cell_range.CellRange]: 1-based, inclusive bounds. *)
Record CellRange : Type := MkCellRange {
  min_col : nat;
  min_row : nat;
  max_col : nat;
  max_row : nat
}.

(** Building a range from a string such as ['B16:D19']: a [ValueError]
    when a lower bound exceeds its upper bound. *)
Definition cell_range (c0 r0 c1 r1 : nat) : result CellRange :=
  if decide (c0 ≤ c1 ∧ r0 ≤ r1) then Ok (MkCellRange c0 r0 c1 r1)
  else Raise ValueError.

Definition in_range (rng : CellRange) (row col : nat) : bool :=
  bool_decide (min_row rng ≤ row ≤ max_row rng ∧ min_col rng ≤ col ≤ max_col rng).

Definition shift (rng : CellRange) (cols : nat) : CellRange :=
  MkCellRange (min_col rng + cols) (min_row rng) (max_col rng + cols) (max_row rng).

(** [ws.move_range(rng, cols=k)] for [k > 0].  Every cell of the range,
    created empty when the worksheet does not have it, is re-keyed [k]
    columns to the right (rightmost column first, so that none is lost) and
    its old key is deleted: a destination receives the source's value, a
    source position that is no destination is left without a cell, and
    the rest of the worksheet is untouched.  The worksheet then extends at
    least to the last row and column of the destination. *)
Definition moved_value (s : sheet) (rng : CellRange) (cols row col : nat) : value :=
  if in_range (shift rng cols) row col then cell_value s row (col - cols)
  else if in_range rng row col then NoneV
  else cell_value s row col.

Definition move_range (s : sheet) (rng : CellRange) (cols : nat) : sheet :=
  let nrows := Nat.max (sheet_max_row s) (max_row rng) in
  let ncols := Nat.max (max_column s) (max_col rng + cols) in
  map (λ row, map (λ col, moved_value s rng cols row col) (seq 1 ncols))
      (seq 1 nrows).

(** [pd.DataFrame(ws.values)].  Short rows are padded; a column that holds
    numbers and no text gets a numeric dtype, in which [None] is stored as
    [nan]. *)
Definition column_of (s : sheet) (c : nat) : list value :=
  map (λ cells, default NoneV (cells !! c)) s.

Definition is_number (v : value) : bool :=
  match v with Num _ => true | _ => false end.
Definition is_text (v : value) : bool :=
  match v with Str _ => true | _ => false end.

Definition numeric_column (vs : list value) : bool :=
  existsb is_number vs && negb (existsb is_text vs).

Definition DataFrame (s : sheet) : frame :=
  map (λ cells,
         map (λ c,
                match default NoneV (cells !! c) with
                | NoneV => if numeric_column (column_of s c) then Num NaN else NoneV
                | v => v
                end)
             (seq 0 (columns s)))
      s.

Definition move_rows : M unit :=
  last ← gets (λ self, Z.of_nat (max_column (ws self)) - 2)%Z;
  max_column_letter ← lift (get_column_letter last);
  rng ← lift (cell_range 2 16 max_column_letter 19);
  modify_self (λ self, set_ws (move_range (ws self) rng 2) self);;
  modify_self (λ self, set_df (DataFrame (ws self)) self).

(** ** [Excel.__init__] and [Excel.modify] *)

(** The object built from a workbook file whose sheet holds [s]. *)
Definition init (s : sheet) : Excel := MkExcel s (DataFrame s) ∅ true.

(** [self.wb.save(self.file)] *)
Definition save : M unit := modify_self (set_file_exists true).

Definition modify : M unit :=
  move_rows;;
  mark_false;;
  mark_contamination_metrics;;
  mark_other_metrics;;
  save.

(** ** The field coercion of [tsv_to_excel] *)

(** Python's [float(str)] and [int(str)] first map the Unicode digits and
    spaces of the text to ASCII ([to_ascii] below) and then read the ASCII
    text.  Grammar, after the surrounding whitespace is removed:
<<
      digitpart  ::= digit (["_"] digit)*
      integer    ::= [sign] digitpart
      number     ::= [digitpart] "." digitpart | digitpart ["."]
      floatvalue ::= [sign] (number [("e" | "E") [sign] digitpart]
                             | "inf" | "infinity" | "nan")
>>
    with the three words matched in any case. *)
Module Parse.

Definition is_space (a : ascii) : bool :=
  let n := nat_of_ascii a in (n =? 32) || ((9 <=? n) && (n <=? 13)).

Definition is_digit (a : ascii) : bool :=
  let n := nat_of_ascii a in (48 <=? n) && (n <=? 57).

Definition lower (a : ascii) : ascii :=
  let n := nat_of_ascii a in
  if (65 <=? n) && (n <=? 90) then ascii_of_nat (n + 32) else a.

Fixpoint lstrip (l : list ascii) : list ascii :=
  match l with
  | a :: l' => if is_space a then lstrip l' else l
  | [] => []
  end.

Definition strip (l : list ascii) : list ascii :=
  rev (lstrip (rev (lstrip l))).

(** An optional sign: whether it is a minus, and what follows. *)
Definition sign (l : list ascii) : bool * list ascii :=
  match l with
  | a :: l' =>
      if Ascii.eqb a "-" then (true, l')
      else if Ascii.eqb a "+" then (false, l')
      else (false, l)
  | [] => (false, [])
  end.

(** [(["_"] digit)*]: the digits read and the text left. *)
Fixpoint digit_run (l : list ascii) : list ascii * list ascii :=
  match l with
  | a :: l' =>
      if is_digit a then
        let r := digit_run l' in (a :: r.1, r.2)
      else if Ascii.eqb a "_" then
        match l' with
        | b :: l'' =>
            if is_digit b then
              let r := digit_run l'' in (b :: r.1, r.2)
            else ([], l)
        | [] => ([], l)
        end
      else ([], l)
  | [] => ([], [])
  end.

Definition digitpart (l : list ascii) : option (list ascii * list ascii) :=
  match l with
  | a :: l' =>
      if is_digit a then
        let r := digit_run l' in Some (a :: r.1, r.2)
      else None
  | [] => None
  end.

Definition digits_value (ds : list ascii) : Z :=
  fold_left (λ acc d, acc * 10 + (Z.of_nat (nat_of_ascii d) - 48))%Z ds 0%Z.

Definition signed (neg : bool) (z : Z) : Z := if neg then (- z)%Z else z.

(** [number]: the digits before and after the point, and the text left. *)
Definition number (l : list ascii)
    : option (list ascii * list ascii * list ascii) :=
  match digitpart l with
  | Some (ip, r) =>
      match r with
      | a :: r' =>
          if Ascii.eqb a "." then
            match digitpart r' with
            | Some (fp, r'') => Some (ip, fp, r'')
            | None => Some (ip, [], r')
            end
          else Some (ip, [], r)
      | [] => Some (ip, [], [])
      end
  | None =>
      match l with
      | a :: r' =>
          if Ascii.eqb a "." then
            match digitpart r' with
            | Some (fp, r'') => Some ([], fp, r'')
            | None => None
            end
          else None
      | [] => None
      end
  end.

(** The optional exponent: its value and the text left. *)
Definition exponent (l : list ascii) : option (Z * list ascii) :=
  match l with
  | a :: r =>
      if Ascii.eqb (lower a) "e" then
        let s := sign r in
        match digitpart s.2 with
        | Some (ds, r') => Some (signed s.1 (digits_value ds), r')
        | None => None
        end
      else Some (0%Z, l)
  | [] => Some (0%Z, [])
  end.

Definition is_word (w : string) (l : list ascii) : bool :=
  bool_decide (map lower l = list_ascii_of_string w).

(** The exact value of [ip.fp e k]. *)
Definition decimal_value (neg : bool) (ip fp : list ascii) (k : Z) : Q :=
  let m := signed neg (digits_value (ip ++ fp)) in
  (inject_Z m * Qpower 10 (k - Z.of_nat (length fp)))%Q.

End Parse.

(** A Python [str]: the sequence of its code points. *)
Definition codepoint : Type := N.
Definition text : Type := list codepoint.

(** The [str] of an ASCII literal. *)
Definition text_of_string (s : string) : text :=
  map N_of_ascii (list_ascii_of_string s).

(** What [converted_row] holds: a [float], an [int] or the [str] itself. *)
Inductive field : Type :=
| Float (x : Py.num)
| Int (n : Z)
| Text (s : text).

(** The exceptions of the loader: a builtin one, openpyxl's
    [IllegalCharacterError], or another one, by the name of its class. *)
Inductive load_exn : Type :=
| Builtin (e : exn)
| IllegalCharacterError
| Other (name : string).

Inductive load_result (A : Type) : Type :=
| Loaded (a : A)
| Failed (e : load_exn).
Arguments Loaded {A} a.
Arguments Failed {A} e.

Global Instance load_result_ret : MRet load_result := λ A a, Loaded a.
Global Instance load_result_bind : MBind load_result := λ A B f m,
  match m with
  | Loaded a => f a
  | Failed e => Failed e
  end.
Global Instance load_result_fmap : FMap load_result := λ A B f m,
  match m with
  | Loaded a => Loaded (f a)
  | Failed e => Failed e
  end.

Definition of_result {A} (r : result A) : load_result A :=
  match r with
  | Ok a => Loaded a
  | Raise e => Failed (Builtin e)
  end.

(** What the [csv.reader] over the opened file yields: the rows read, and
    the exception that ends the iteration before the end of the file, if
    any (the file cannot be opened or decoded, or is no valid csv). *)
Record tsv : Type := MkTsv {
  tsv_rows : list (list text);
  tsv_error : option load_exn
}.

(** The characters openpyxl refuses in a cell:
    [[\000-\010]|[\013-\014]|[\016-\037]]. *)
Definition illegal_character (ch : codepoint) : bool :=
  ((ch <=? 8) || (ch =? 11) || (ch =? 12) || ((14 <=? ch) && (ch <=? 31)))%N.

(** [Cell.check_string]: the text is cut to 32767 characters, and refused
    when what is left holds an illegal character. *)
Definition check_string (value : text) : load_result text :=
  let value := take (N.to_nat 32767) value in
  if existsb illegal_character value then Failed IllegalCharacterError
  else Loaded value.

(** Binding a value to a new cell: a text is checked, a number is taken
    as it is. *)
Definition bind_value (fld : field) : load_result field :=
  match fld with
  | Text s => Text <$> check_string s
  | _ => Loaded fld
  end.

(** [worksheet.append(converted_row)] *)
Definition append (worksheet : list (list field)) (converted_row : list field)
    : load_result (list (list field)) :=
  cells ← mapM bind_value converted_row;
  mret (worksheet ++ [cells]).

(** What the loader takes from the platform it runs on. *)
Record platform : Type := MkPlatform {
  (** The Unicode database of the interpreter: [Py_UNICODE_ISSPACE], and
      [Py_UNICODE_TODECIMAL] with [None] for a character that is no
      decimal digit. *)
  unicode_isspace : codepoint → bool;
  unicode_todecimal : codepoint → option nat;
  (** The rounding of an exact decimal value to the nearest [float]. *)
  round : Q → Py.num;
  (** [sys.get_int_max_str_digits()]: the longest digit string [int]
      accepts, 0 for no limit. *)
  int_max_str_digits : nat;
  (** [workbook_object.save(output_filepath)] on a workbook whose sheet
      holds the given rows: the exception it raises, if any. *)
  workbook_save : list (list field) → option load_exn
}.

Section Loader.
Variable py : platform.

(** The first thing [float] and [int] do with a [str]
    ([_PyUnicode_TransformDecimalAndSpaceToASCII]): an ASCII text is taken
    as it is; in another one every character below 127 is kept, a Unicode
    space becomes a blank, a Unicode decimal digit becomes its ASCII
    digit, and the text is cut with a question mark at the first
    character that is none of these. *)
Fixpoint transform (item : text) : list ascii :=
  match item with
  | [] => []
  | ch :: item' =>
      if (ch <? 127)%N then ascii_of_N ch :: transform item'
      else if unicode_isspace py ch then " "%char :: transform item'
      else
        match unicode_todecimal py ch with
        | Some d => ascii_of_nat (48 + d) :: transform item'
        | None => [ "?"%char ]
        end
  end.

Definition to_ascii (item : text) : list ascii :=
  if forallb (λ ch, (ch <? 128)%N) item then map ascii_of_N item
  else transform item.

Definition py_float (item : text) : result Py.num :=
  let s := Parse.sign (Parse.strip (to_ascii item)) in
  if Parse.is_word "inf" s.2 || Parse.is_word "infinity" s.2 then
    Ok (if s.1 then NInf else PInf)
  else if Parse.is_word "nan" s.2 then Ok NaN
  else
    match Parse.number s.2 with
    | Some (ip, fp, r) =>
        match Parse.exponent r with
        | Some (k, []) => Ok (round py (Parse.decimal_value s.1 ip fp k))
        | _ => Raise ValueError
        end
    | None => Raise ValueError
    end.

Definition py_int (item : text) : result Z :=
  let s := Parse.sign (Parse.strip (to_ascii item)) in
  match Parse.digitpart s.2 with
  | Some (ds, []) =>
      if (int_max_str_digits py =? 0) || (length ds <=? int_max_str_digits py)
      then Ok (Parse.signed s.1 (Parse.digits_value ds))
      else Raise ValueError
  | _ => Raise ValueError
  end.

(** [try: body  except ValueError: handler] *)
Definition try_except_ValueError {A} (body handler : result A) : result A :=
  match body with
  | Raise ValueError => handler
  | r => r
  end.

(** The body of [for item in row]: the value appended to [converted_row]. *)
Definition convert (item : text) : result field :=
  try_except_ValueError (Float <$> py_float item)
    (try_except_ValueError (Int <$> py_int item)
       (Ok (Text item))).

(** The coercion without the [int] attempt. *)
Definition convert_float_or_text (item : text) : result field :=
  try_except_ValueError (Float <$> py_float item) (Ok (Text item)).

(** [for row in read_tsv]: each row is converted and appended to the
    worksheet. *)
Fixpoint for_rows (rows : list (list text)) (worksheet : list (list field))
    : load_result (list (list field)) :=
  match rows with
  | [] => Loaded worksheet
  | row :: rows' =>
      converted_row ← of_result (mapM convert row);
      worksheet' ← append worksheet converted_row;
      for_rows rows' worksheet'
  end.

(** The rows of the worksheet that has been saved. *)
Definition tsv_to_excel (read_tsv : tsv) : load_result (list (list field)) :=
  worksheet ← for_rows (tsv_rows read_tsv) [];
  match tsv_error read_tsv with
  | Some e => Failed e
  | None =>
      match workbook_save py worksheet with
      | Some e => Failed e
      | None => Loaded worksheet
      end
  end.

(** What a cell keeps of an item: the [float] of the item, or the item cut
    to the longest text of a cell. *)
Definition appended (item : text) : field :=
  match py_float item with
  | Ok x => Float x
  | Raise _ => Text (take (N.to_nat 32767) item)
  end.

(** An item no cell takes: [float] refuses it, and what a cell would keep
    of it holds an illegal character. *)
Definition unclean (item : text) : bool :=
  match py_float item with
  | Ok _ => false
  | Raise _ => existsb illegal_character (take (N.to_nat 32767) item)
  end.

End Loader.

(** An excerpt of the Unicode database, exact arithmetic in place of the
    rounding, the digit limit of a stock interpreter and a save that
    succeeds: the platform of the examples. *)
Definition isspace_excerpt (ch : codepoint) : bool :=
  ((ch =? 160) || (ch =? 12288))%N.

Definition todecimal_excerpt (ch : codepoint) : option nat :=
  if ((1632 <=? ch) && (ch <=? 1641))%N then Some (N.to_nat (ch - 1632))
  else if ((65296 <=? ch) && (ch <=? 65305))%N then Some (N.to_nat (ch - 65296))
  else None.

Definition example_platform : platform :=
  MkPlatform isspace_excerpt todecimal_excerpt Fin 4300 (λ _, None).

(** ** The number read back from the saved workbook *)

(** openpyxl writes the number of a cell as ["%.16g" % value]: 16
    significant digits, correctly rounded, in exponent notation when the
    decimal exponent is below -4 or at least 16, without trailing zeros.
    [load_workbook] reads the text back with [int] when it holds neither
    a point nor an exponent, and with [float] otherwise. *)
Inductive xl_number : Type :=
| XInt (n : Z)
| XFloat (x : Py.num).

Definition pow10 (k : Z) : Q :=
  if (0 <=? k)%Z then inject_Z (10 ^ k) else / inject_Z (10 ^ (- k)).

(** The decimal exponent [e] of [a > 0]: [10^e <= a < 10^(e+1)]. *)
Fixpoint exponent_from (fuel : nat) (a : Q) (e : Z) : Z :=
  match fuel with
  | O => e
  | S fuel' =>
      if Qle_bool (pow10 (e + 1)) a then exponent_from fuel' a (e + 1)
      else if Qle_bool (pow10 e) a then e
      else exponent_from fuel' a (e - 1)
  end.

Definition decimal_exponent (a : Q) : Z :=
  exponent_from (Z.to_nat (Z.log2 (Qnum a) + Z.log2 (QDen a) + 2)) a 0.

Definition round_half_even (a : Q) : Z :=
  let f := Qfloor a in
  match Qcompare (a - inject_Z f) (1 # 2) with
  | Lt => f
  | Gt => (f + 1)%Z
  | Eq => if Z.even f then f else (f + 1)%Z
  end.

(** The 16 significant digits of [a > 0] and its decimal exponent. *)
Definition sig16 (a : Q) : Z * Z :=
  let e := decimal_exponent a in
  let m := round_half_even (a * pow10 (15 - e)) in
  if (m =? 10 ^ 16)%Z then ((10 ^ 15)%Z, (e + 1)%Z) else (m, e).

(** What is read back for the finite number [q], under the rounding
    [round] of a decimal text to a [float]. *)
Definition reload_number (round : Q → Py.num) (q : Q) : xl_number :=
  if Qeq_bool q 0 then XInt 0
  else
    let d := sig16 (Qabs q) in
    let m := if Py.Qlt_bool q 0 then (- d.1)%Z else d.1 in
    let e := d.2 in
    let written := (inject_Z m * pow10 (e - 15))%Q in
    if ((e <? -4) || (16 <=? e))%Z then XFloat (round written)
    else if (m mod 10 ^ (15 - e) =? 0)%Z then XInt (m / 10 ^ (15 - e))
    else XFloat (round written).

(** ** Definitions used to state the properties *)

(** The value held at a position of the table, if the row reaches it. *)
Definition cell (f : frame) (r c : nat) : option value :=
  f !! r ≫= (.!! c).

(** The cells highlighted by a run, and how it ended. *)
Definition trace (A : Type) : Type := list (nat * nat) * result A.

Definition highlight_all (ps : list (nat * nat)) (self : Excel) : Excel :=
  MkExcel (ws self) (df self) (list_to_set ps ∪ highlighted self) (file_exists self).

Definition run_trace {A} (t : trace A) : M A :=
  λ self, (t.2, highlight_all t.1 self).

Fixpoint trace_for {A} (xs : list A) (t : A → trace unit) : trace unit :=
  match xs with
  | [] => ([], Ok tt)
  | x :: xs' =>
      match (t x).2 with
      | Ok _ => ((t x).1 ++ (trace_for xs' t).1, (trace_for xs' t).2)
      | Raise e => ((t x).1, Raise e)
      end
  end.

(** [v] lies outside [[L, U]]: [v < L or v > U]. *)
Definition outside (L U v : Py.num) : bool := num_ltb v L || num_ltb U v.

(** The decision [mark_other_metrics] takes for the label at [idx] and the
    sample column [s]: whether the cell is highlighted. *)
Definition other_flag (f : frame) (s : nat) (idx : nat * nat) : result bool :=
  LSL ← loc f idx.1 (idx.2 + 1);
  USL ← loc f idx.1 (idx.2 + 2);
  sample_value ← loc f idx.1 s;
  if Py.op_eq LSL NA && Py.op_eq USL NA then mret false
  else if Py.op_eq LSL NA && Py.op_ne sample_value NA then Py.op_gt sample_value USL
  else if Py.op_eq USL NA && Py.op_ne sample_value NA then Py.op_lt sample_value LSL
  else if Py.op_ne sample_value NA then
    below ← Py.op_lt sample_value LSL;
    if (below : bool) then mret true else Py.op_gt sample_value USL
  else mret false.

Definition flag_trace (p : nat * nat) (r : result bool) : trace unit :=
  match r with
  | Ok true => ([p], Ok tt)
  | Ok false => ([], Ok tt)
  | Raise e => ([], Raise e)
  end.

Definition other_trace (f : frame) : trace unit :=
  trace_for (range 3 (columns f)) (λ s,
    trace_for metrics_to_find (λ metric,
      trace_for (index_of f metric) (λ idx,
        flag_trace (s + 1, idx.1 + 1) (other_flag f s idx)))).

(** The cells highlighted for a flagged sample: the cell of column [s] in
    the row of every contamination label found. *)
Definition contamination_cells (f : frame) (s : nat) : list (nat * nat) :=
  flat_map (λ element, map (λ idx, (s + 1, idx.1 + 1)) (index_of f element))
           elements_to_find.

Definition column_trace (f : frame) (s : nat) (l : locals) : trace locals :=
  match for_elements f s elements_to_find l with
  | Raise e => ([], Raise e)
  | Ok l' =>
      match read (sample_to_highlight l') with
      | Raise e => ([], Raise e)
      | Ok true => (contamination_cells f s, Ok l')
      | Ok false => ([], Ok l')
      end
  end.

Fixpoint samples_trace (f : frame) (cols : list nat) (l : locals) : trace locals :=
  match cols with
  | [] => ([], Ok l)
  | s :: cols' =>
      match (column_trace f s l).2 with
      | Ok l' =>
          ((column_trace f s l).1 ++ (samples_trace f cols' l').1,
           (samples_trace f cols' l').2)
      | Raise e => ((column_trace f s l).1, Raise e)
      end
  end.

(** What [judge] concludes from a value and its limits: the verdict and
    whether the loop is left. *)
Definition judge_values (v lsl usl : value) : result (bool * bool) :=
  if Py.op_eq v NA then mret (false, false)
  else
    below ← Py.op_lt v lsl;
    out ← (if (below : bool) then mret true else Py.op_gt v usl);
    if (out : bool) then mret (true, false) else mret (false, true).

(** The verdict on a sample from its two measurements. *)
Definition pair_verdict (v1 l1 u1 v2 l2 u2 : value) : result bool :=
  r ← judge_values v1 l1 u1;
  if (r.2 : bool) then mret r.1
  else r' ← judge_values v2 l2 u2; mret r'.1.

(** A measurement that is numeric and outside [[L, U]], and one that is
    numeric and within. *)
Definition violates (L U : Py.num) (v : value) : bool :=
  match v with
  | Num x => outside L U x
  | _ => false
  end.

Definition within (L U : Py.num) (v : value) : bool :=
  match v with
  | Num x => negb (outside L U x)
  | _ => false
  end.

(** ** Example tables *)

(** How a method ends on an object, and the object it leaves. *)
Definition outcome {A} (m : M A) (self : Excel) : result A := (m self).1.
Definition after {A} (m : M A) (self : Excel) : Excel := (m self).2.

(** An object over a frame, nothing highlighted yet. *)
Definition fresh (f : frame) : Excel := MkExcel f f ∅ true.

(** The two contamination rows with the shared limits 0.0 and 0.02 and one
    sample. *)
Definition contamination_table (score p_value : value) : frame :=
  [ [ Str "CONTAMINATION_SCORE (NA)"; Num (Fin 0); Num (Fin 0.02); score ];
    [ Str "CONTAMINATION_P_VALUE (NA)"; Num (Fin 0); Num (Fin 0.02); p_value ] ].

(** One metric row with its limits and one sample. *)
Definition metric_table (lsl usl sample : value) : frame :=
  [ [ Str "MEDIAN_INSERT_SIZE (bp)"; lsl; usl; sample ] ].

(** A table whose row 17 is the status row [TRUE, FALSE, TRUE], and the
    same table with the status row one row higher. *)
Definition status_table : frame :=
  replicate 16 [] ++ [ [ Str "PASS"; NoneV; NoneV; Str "TRUE"; Str "FALSE"; Str "TRUE" ] ].

Definition misplaced_status_table : frame :=
  replicate 15 [] ++ [ [ Str "PASS"; NoneV; NoneV; Str "TRUE"; Str "FALSE"; Str "TRUE" ] ].

(** The body of the loop of [mark_false]. *)
Definition mark_false_cell (idx : nat * nat) : M unit :=
  let xl_row := idx.1 + 1 in
  if decide (xl_row ≠ 17) then
    remove_file;; raise TypeError
  else
    xl_col ← lift (get_column_letter (Z.of_nat (idx.2 + 1)));
    highlight_cell xl_col xl_row.

(** The range [B16:<letter of max_column - 2>19] that [move_rows] shifts. *)
Definition status_range (s : sheet) : CellRange :=
  MkCellRange 2 16 (max_column s - 2) 19.

(** A worksheet of three rows and five columns. *)
Definition short_sheet : sheet :=
  [ [ Str "a"; Str "b"; Str "c"; Str "d"; Str "e" ];
    [ Str "f"; Num (Fin 1); Num (Fin 2); Num (Fin 3); Num (Fin 4) ];
    [ Str "g"; Num (Fin 5); Num (Fin 6); Num (Fin 7); Num (Fin 8) ] ].

(** A worksheet of sixteen rows and six columns; row 16 holds six texts. *)
Definition status_sheet : sheet :=
  replicate 15 [] ++
  [ [ Str "a"; Str "b"; Str "c"; Str "d"; Str "e"; Str "f" ] ].

(** The contamination score row alone, and the same row with its label
    one column to the right. *)
Definition score_only_table (score : value) : frame :=
  [ [ Str "CONTAMINATION_SCORE (NA)"; Num (Fin 0); Num (Fin 0.02); score ] ].

Definition offset_label_table (score : value) : frame :=
  [ [ Str "Metric"; Str "CONTAMINATION_SCORE (NA)"; Num (Fin 0); score ] ].

(** A worksheet of the two contamination rows, and one with the text
    FALSE in its first row. *)
Definition contamination_sheet : sheet :=
  contamination_table (Num (Fin 0.01)) (Num (Fin 0.05)).

Definition stray_sheet : sheet :=
  [ [ Str "FALSE"; Str "b"; Str "c"; Str "d" ] ].

(** A value the scanners can compare with a numeric limit without
    raising: a number, or the text NA. *)
Definition comparable (v : value) : Prop := is_num v ∨ v = NA.

(** Closing an equation between a run and its trace. *)
Create Rewrite HintDb trace.

Ltac trace_done :=
  simpl; autorewrite with trace; unfold run_trace; simpl;
  autorewrite with trace; done.

(** ** Numbers *)

Lemma Qlt_bool_iff (x y : Q) : Py.Qlt_bool x y = true ↔ (x < y)%Q.
Proof. unfold Py.Qlt_bool, Qlt. apply Z.ltb_lt. Qed.

Lemma num_ltb_irrefl (a b : Py.num) :
  num_eqb a b = true → num_ltb a b = false.
Proof.
  destruct a as [x| | |], b as [y| | |]; simpl; try done.
  intros H%Qeq_bool_iff. apply not_true_is_false. intros Hlt%Qlt_bool_iff.
  rewrite H in Hlt. by apply Qlt_irrefl in Hlt.
Qed.

Lemma num_eqb_sym (a b : Py.num) : num_eqb a b = num_eqb b a.
Proof.
  destruct a as [x| | |], b as [y| | |]; simpl; try done.
  apply eq_true_iff_eq. rewrite !Qeq_bool_iff. split; intros H; by symmetry.
Qed.

Lemma num_ltb_leb_false (a b : Py.num) :
  num_leb a b = true → num_ltb b a = false.
Proof.
  unfold num_leb. intros [H|H]%orb_true_iff.
  - destruct a as [x| | |], b as [y| | |]; simpl in *; try done.
    apply not_true_is_false. intros H'%Qlt_bool_iff. apply Qlt_bool_iff in H.
    apply (Qlt_irrefl x). by apply Qlt_trans with y.
  - apply num_ltb_irrefl. by rewrite num_eqb_sym.
Qed.

Lemma num_ltb_eqb_l (a a' b : Py.num) :
  num_eqb a a' = true → num_ltb a b = num_ltb a' b.
Proof.
  destruct a as [x| | |], a' as [x'| | |], b as [y| | |]; simpl; try done.
  intros H%Qeq_bool_iff. apply eq_true_iff_eq.
  rewrite !Qlt_bool_iff. by rewrite H.
Qed.

Lemma num_ltb_eqb_r (a b b' : Py.num) :
  num_eqb b b' = true → num_ltb a b = num_ltb a b'.
Proof.
  destruct a as [x| | |], b as [y| | |], b' as [y'| | |]; simpl; try done.
  intros H%Qeq_bool_iff. apply eq_true_iff_eq.
  rewrite !Qlt_bool_iff. by rewrite H.
Qed.

(** ** The frame *)

Lemma columns_ge (f : frame) (r : nat) (cells : list value) :
  f !! r = Some cells → length cells ≤ columns f.
Proof.
  revert r. induction f as [|row f IH]; intros [|r] H; simplify_eq/=.
  - lia.
  - specialize (IH _ H). lia.
Qed.

Lemma cell_lt_columns (f : frame) (r c : nat) (v : value) :
  cell f r c = Some v → c < columns f.
Proof.
  unfold cell. destruct (f !! r) as [cells|] eqn:E; simpl; [|done].
  intros H%lookup_lt_Some. apply columns_ge in E. lia.
Qed.

Lemma loc_cell (f : frame) (r c : nat) (v : value) :
  cell f r c = Some v → loc f r c = Ok v.
Proof.
  intros H. pose proof (cell_lt_columns _ _ _ _ H) as Hc.
  unfold cell in H. unfold loc.
  destruct (f !! r) as [cells|]; simpl in *; [|done].
  rewrite decide_True by done. by rewrite H.
Qed.

Lemma py_eq_Str (v : value) (x : string) :
  Py.op_eq v (Str x) = true ↔ v = Str x.
Proof.
  destruct v as [n|s|]; simpl; try (split; done).
  rewrite String.eqb_eq. split; congruence.
Qed.

Lemma stack_row_spec (r c0 : nat) (cells : list value) (p : nat * nat * value) :
  In p (stack_row r c0 cells) ↔
  p.1.1 = r ∧ c0 ≤ p.1.2 ∧ cells !! (p.1.2 - c0) = Some p.2 ∧ notna p.2 = true.
Proof.
  revert c0. induction cells as [|v cells IH]; intros c0; simpl.
  - split; [done|]. by intros (_ & _ & ? & _).
  - rewrite in_app_iff, IH. destruct p as [[r' c'] w]; simpl. split.
    + intros [H|(-> & Hc & Hl & Hn)].
      * destruct (notna v) eqn:Hv; simpl in H; [|done].
        destruct H as [H|[]]. simplify_eq. by rewrite Nat.sub_diag.
      * replace (c' - c0) with (S (c' - S c0)) by lia. split_and!; [done|lia|done|done].
    + intros (-> & Hc & Hl & Hn). destruct (decide (c' = c0)) as [->|Hne].
      * left. rewrite Nat.sub_diag in Hl. simplify_eq/=. rewrite Hn. by left.
      * right. replace (c' - c0) with (S (c' - S c0)) in Hl by lia.
        split_and!; [done|lia|done|done].
Qed.

Lemma stack_from_spec (r0 : nat) (f : frame) (p : nat * nat * value) :
  In p (stack_from r0 f) ↔
  r0 ≤ p.1.1 ∧ cell f (p.1.1 - r0) p.1.2 = Some p.2 ∧ notna p.2 = true.
Proof.
  revert r0. induction f as [|cells f IH]; intros r0; simpl.
  - split; [done|]. by intros (_ & ? & _).
  - rewrite in_app_iff, IH, stack_row_spec. destruct p as [[r' c'] w]; simpl.
    unfold cell. split.
    + intros [(-> & _ & Hl & Hn)|(Hr & Hl & Hn)].
      * rewrite Nat.sub_diag, Nat.sub_0_r in *. by split_and!.
      * replace (r' - r0) with (S (r' - S r0)) by lia. split_and!; [lia|done|done].
    + intros (Hr & Hl & Hn). destruct (decide (r' = r0)) as [->|Hne].
      * left. rewrite Nat.sub_diag in Hl. rewrite Nat.sub_0_r.
        split_and!; [done|lia|done|done].
      * right. replace (r' - r0) with (S (r' - S r0)) in Hl by lia.
        split_and!; [lia|done|done].
Qed.

(** [index_of] lists exactly the positions that hold the text. *)
Lemma index_of_spec (f : frame) (x : string) (r c : nat) :
  (r, c) ∈ index_of f x ↔ cell f r c = Some (Str x).
Proof.
  rewrite list_elem_of_In. unfold index_of, stack.
  rewrite in_map_iff. split.
  - intros ([[r' c'] v] & Heq & Hin). simpl in Heq. simplify_eq.
    apply filter_In in Hin as [Hin Hv]. simpl in Hv.
    apply py_eq_Str in Hv as ->.
    apply stack_from_spec in Hin as (_ & Hl & _). simpl in Hl.
    by rewrite Nat.sub_0_r in Hl.
  - intros H. exists (r, c, Str x). split; [done|].
    apply filter_In. split.
    + apply stack_from_spec. simpl. rewrite Nat.sub_0_r. split_and!; [lia|done|done].
    + simpl. by rewrite String.eqb_refl.
Qed.

(** ** Runs and their traces *)

Lemma highlight_all_nil (self : Excel) : highlight_all [] self = self.
Proof.
  destruct self as [w f h b]. unfold highlight_all; simpl.
  f_equal. apply (left_id_L ∅ (∪)).
Qed.

Lemma highlight_all_app (ps qs : list (nat * nat)) (self : Excel) :
  highlight_all qs (highlight_all ps self) = highlight_all (ps ++ qs) self.
Proof.
  unfold highlight_all; simpl. f_equal. rewrite list_to_set_app_L.
  by rewrite (assoc_L (∪)), (comm_L (∪) (list_to_set qs) (list_to_set ps)).
Qed.

Lemma add_highlight_all (p : nat * nat) (self : Excel) :
  add_highlight p self = highlight_all [p] self.
Proof.
  unfold add_highlight, highlight_all; simpl. f_equal.
  by rewrite (right_id_L ∅ (∪)).
Qed.

Lemma run_trace_ok_nil (self : Excel) :
  (Ok tt, self) = run_trace ([], Ok tt) self.
Proof. unfold run_trace; simpl. by rewrite highlight_all_nil. Qed.

Lemma get_column_letter_succ (n : nat) :
  get_column_letter (Z.of_nat (n + 1)) = Ok (n + 1).
Proof.
  unfold get_column_letter.
  destruct (Z.leb_spec 1 (Z.of_nat (n + 1))); [|lia]. by rewrite Nat2Z.id.
Qed.

Lemma for_each_trace {A} (f : frame) (xs : list A) (body : A → M unit)
    (t : A → trace unit) :
  (∀ x self, x ∈ xs → df self = f → body x self = run_trace (t x) self) →
  ∀ self, df self = f → for_each xs body self = run_trace (trace_for xs t) self.
Proof.
  induction xs as [|x xs IH]; intros Hbody self Hf; simpl.
  - apply run_trace_ok_nil.
  - unfold mbind, M_bind. rewrite Hbody by (done || left).
    unfold run_trace at 1. destruct (t x) as [ps [[]|e]] eqn:Et; simpl.
    + rewrite IH; [|intros; apply Hbody; [by right|done]|done].
      unfold run_trace; simpl. by rewrite highlight_all_app.
    + done.
Qed.

Lemma trace_for_ok {A} (xs : list A) (t : A → trace unit) :
  (trace_for xs t).2 = Ok tt ↔ ∀ x, x ∈ xs → (t x).2 = Ok tt.
Proof.
  induction xs as [|x xs IH]; simpl.
  - split; [|done]. intros _ x Hx. by apply not_elem_of_nil in Hx.
  - destruct (t x) as [ps [[]|e]] eqn:Et; simpl.
    + rewrite IH. split.
      * intros H y [->|Hy]%elem_of_cons; [by rewrite Et|by apply H].
      * intros H y Hy. apply H. by right.
    + split; [done|]. intros H. specialize (H x ltac:(left)).
      by rewrite Et in H.
Qed.

Lemma trace_for_elem {A} (xs : list A) (t : A → trace unit) (p : nat * nat) :
  (trace_for xs t).2 = Ok tt →
  p ∈ (trace_for xs t).1 ↔ ∃ x, x ∈ xs ∧ p ∈ (t x).1.
Proof.
  induction xs as [|x xs IH]; simpl.
  - intros _. split; [by intros ?%not_elem_of_nil|].
    by intros (x & ?%not_elem_of_nil & _).
  - destruct (t x) as [ps [[]|e]] eqn:Et; simpl; [|done].
    intros Hok. rewrite elem_of_app, (IH Hok). split.
    + intros [H|(y & Hy & H)].
      * exists x. rewrite Et. split; [left|done].
      * exists y. split; [by right|done].
    + intros (y & [->|Hy]%elem_of_cons & H).
      * left. by rewrite Et in H.
      * right. by exists y.
Qed.

Lemma trace_for_raise {A} (xs : list A) (t : A → trace unit) (x : A) (e : exn) :
  x ∈ xs → (t x).2 = Raise e → ∃ e', (trace_for xs t).2 = Raise e'.
Proof.
  intros Hx He. destruct (trace_for xs t).2 as [[]|e'] eqn:E; [|by exists e'].
  rewrite (proj1 (trace_for_ok xs t) E x Hx) in He. done.
Qed.

Lemma elem_of_range (a b n : nat) : n ∈ range a b ↔ a ≤ n < b.
Proof. unfold range. rewrite elem_of_seq. lia. Qed.

(** ** [mark_other_metrics] runs its trace *)

#[local] Hint Rewrite add_highlight_all highlight_all_nil : trace.

Lemma other_metric_cell_trace (s : nat) (idx : nat * nat) (self : Excel) :
  other_metric_cell s idx self =
  run_trace (flag_trace (s + 1, idx.1 + 1) (other_flag (df self) s idx)) self.
Proof.
  unfold other_metric_cell, other_flag, gets, lift, highlight_cell, modify_self.
  unfold mbind, M_bind, result_bind, mret, M_ret, result_ret; simpl.
  rewrite get_column_letter_succ.
  destruct (loc (df self) idx.1 (idx.2 + 1)) as [lsl|e]; [|trace_done].
  destruct (loc (df self) idx.1 (idx.2 + 2)) as [usl|e]; [|trace_done].
  destruct (loc (df self) idx.1 s) as [v|e]; [|trace_done].
  destruct (Py.op_eq lsl NA && Py.op_eq usl NA); [trace_done|].
  destruct (Py.op_eq lsl NA && Py.op_ne v NA).
  { destruct (Py.op_gt v usl) as [[]|e]; trace_done. }
  destruct (Py.op_eq usl NA && Py.op_ne v NA).
  { destruct (Py.op_lt v lsl) as [[]|e]; trace_done. }
  destruct (Py.op_ne v NA); [|trace_done].
  destruct (Py.op_lt v lsl) as [[]|e]; [trace_done| |trace_done].
  destruct (Py.op_gt v usl) as [[]|e]; trace_done.
Qed.

Lemma mark_other_metrics_trace (self : Excel) :
  mark_other_metrics self = run_trace (other_trace (df self)) self.
Proof.
  unfold mark_other_metrics, other_trace.
  unfold mbind at 1, M_bind at 1, gets at 1.
  apply for_each_trace with (f := df self); [|done].
  intros s self1 _ Hdf1.
  apply for_each_trace with (f := df self); [|done].
  intros metric self2 _ Hdf2.
  unfold mbind, M_bind, gets. rewrite Hdf2.
  apply for_each_trace with (f := df self); [|done].
  intros idx self3 _ Hdf3.
  rewrite other_metric_cell_trace. by rewrite Hdf3.
Qed.

Lemma run_trace_inv {A} (t : trace A) (self self' : Excel) (r : result A) :
  run_trace t self = (r, self') →
  t.2 = r ∧ ws self' = ws self ∧ df self' = df self ∧
  file_exists self' = file_exists self ∧
  ∀ p, p ∈ highlighted self' ↔ p ∈ t.1 ∨ p ∈ highlighted self.
Proof.
  unfold run_trace. intros [= <- <-]. split_and!; try done.
  intros p. simpl. by rewrite elem_of_union, elem_of_list_to_set.
Qed.

Lemma other_trace_elem (f : frame) (p : nat * nat) :
  (other_trace f).2 = Ok tt →
  p ∈ (other_trace f).1 ↔
  ∃ s metric idx, 3 ≤ s < columns f ∧ metric ∈ metrics_to_find ∧
    idx ∈ index_of f metric ∧ other_flag f s idx = Ok true ∧
    p = (s + 1, idx.1 + 1).
Proof.
  unfold other_trace. intros Hok. rewrite (trace_for_elem _ _ _ Hok).
  pose proof (proj1 (trace_for_ok _ _) Hok) as Hok1. split.
  - intros (s & Hs & Hp). specialize (Hok1 s Hs).
    rewrite (trace_for_elem _ _ _ Hok1) in Hp. destruct Hp as (m & Hm & Hp).
    pose proof (proj1 (trace_for_ok _ _) Hok1 m Hm) as Hok2.
    rewrite (trace_for_elem _ _ _ Hok2) in Hp. destruct Hp as (idx & Hi & Hp).
    exists s, m, idx. apply elem_of_range in Hs.
    destruct (other_flag f s idx) as [[]|e]; simpl in Hp;
      [|by apply not_elem_of_nil in Hp..].
    apply list_elem_of_singleton in Hp. split; [done|]. by split_and!.
  - intros (s & m & idx & Hs & Hm & Hi & Hflag & ->).
    apply elem_of_range in Hs. exists s. split; [done|].
    specialize (Hok1 s Hs). rewrite (trace_for_elem _ _ _ Hok1).
    exists m. split; [done|].
    pose proof (proj1 (trace_for_ok _ _) Hok1 m Hm) as Hok2.
    rewrite (trace_for_elem _ _ _ Hok2). exists idx. split; [done|].
    rewrite Hflag. simpl. by apply list_elem_of_singleton.
Qed.

(** What a completed [mark_other_metrics] has highlighted. *)
Lemma mark_other_metrics_highlighted (self self' : Excel) (p : nat * nat) :
  mark_other_metrics self = (Ok tt, self') →
  p ∈ highlighted self' ↔
  p ∈ highlighted self ∨
  ∃ s metric idx, 3 ≤ s < columns (df self) ∧ metric ∈ metrics_to_find ∧
    idx ∈ index_of (df self) metric ∧ other_flag (df self) s idx = Ok true ∧
    p = (s + 1, idx.1 + 1).
Proof.
  rewrite mark_other_metrics_trace. intros (Hok & _ & _ & _ & Hh)%run_trace_inv.
  rewrite Hh, (other_trace_elem _ _ Hok). tauto.
Qed.

(** A row with one configured label: the cell of sample column [s] is
    highlighted by the pass exactly when the decision for that label says
    so. *)
Lemma mark_other_metrics_row (self self' : Excel) (r c s : nat) (metric : string) :
  mark_other_metrics self = (Ok tt, self') →
  metric ∈ metrics_to_find →
  cell (df self) r c = Some (Str metric) →
  (∀ m c', m ∈ metrics_to_find → cell (df self) r c' = Some (Str m) → c' = c) →
  (s + 1, r + 1) ∉ highlighted self →
  (s + 1, r + 1) ∈ highlighted self' ↔
  3 ≤ s < columns (df self) ∧ other_flag (df self) s (r, c) = Ok true.
Proof.
  intros Hrun Hm Hc Huniq Hnew.
  rewrite (mark_other_metrics_highlighted _ _ _ Hrun). split.
  - intros [?|(s' & m & [r' c'] & Hs & Hm' & Hi & Hflag & Heq)]; [done|].
    simpl in Heq. injection Heq as Hs' Hr'.
    assert (s' = s) as -> by lia. assert (r' = r) as -> by lia.
    apply index_of_spec in Hi. by rewrite <- (Huniq m c' Hm' Hi).
  - intros [Hs Hflag]. right. exists s, metric, (r, c).
    split; [done|]. split_and!; try done. by apply index_of_spec.
Qed.

(** ** [mark_contamination_metrics] runs its trace *)

Lemma trace_for_all_ok {A} (xs : list A) (g : A → list (nat * nat)) :
  trace_for xs (λ x, (g x, Ok tt)) = (flat_map g xs, Ok tt).
Proof. induction xs as [|x xs IH]; simpl; [done|]. by rewrite IH. Qed.

Lemma flat_map_singleton {A B} (h : A → B) (xs : list A) :
  flat_map (λ x, [h x]) xs = map h xs.
Proof. induction xs as [|x xs IH]; simpl; [done|]. by rewrite IH. Qed.

Lemma contamination_column_trace (s : nat) (l : locals) (self : Excel) :
  contamination_column s l self = run_trace (column_trace (df self) s l) self.
Proof.
  unfold contamination_column, column_trace.
  unfold mbind at 1, M_bind at 1, gets at 1.
  unfold mbind at 1, M_bind at 1, lift at 1.
  destruct (for_elements (df self) s elements_to_find l) as [l'|e]; [|trace_done].
  unfold mbind at 1, M_bind at 1, lift at 1.
  destruct (read (sample_to_highlight l')) as [[]|e]; [| |trace_done].
  - unfold mbind at 1, M_bind at 1.
    rewrite for_each_trace with
      (f := df self)
      (t := λ element, (map (λ idx, (s + 1, idx.1 + 1)) (index_of (df self) element), Ok tt));
      [|intros element self1 _ Hdf1|done].
    + by rewrite trace_for_all_ok.
    + unfold mbind, M_bind, gets. rewrite Hdf1.
      rewrite for_each_trace with
        (f := df self) (t := λ idx, ([(s + 1, idx.1 + 1)], Ok tt)); [|intros idx self2 _ _|done].
      * by rewrite trace_for_all_ok, flat_map_singleton.
      * unfold mbind, M_bind, lift, highlight_cell, modify_self.
        rewrite get_column_letter_succ. trace_done.
  - unfold mbind, M_bind, mret, M_ret. trace_done.
Qed.

Lemma for_samples_trace (cols : list nat) (l : locals) (self : Excel) :
  for_samples cols l self = run_trace (samples_trace (df self) cols l) self.
Proof.
  revert l self. induction cols as [|s cols IH]; intros l self; simpl.
  - unfold mret, M_ret. trace_done.
  - unfold mbind, M_bind. rewrite contamination_column_trace.
    unfold run_trace at 1.
    destruct (column_trace (df self) s l) as [ps [l'|e]]; simpl; [|done].
    rewrite IH. unfold run_trace; simpl. by rewrite highlight_all_app.
Qed.

Lemma mark_contamination_metrics_trace (self : Excel) :
  mark_contamination_metrics self =
  let t := samples_trace (df self) (range 3 (columns (df self))) unbound in
  run_trace (t.1, (λ _, tt) <$> t.2) self.
Proof.
  unfold mark_contamination_metrics.
  unfold mbind, M_bind, gets. rewrite for_samples_trace. unfold run_trace; simpl.
  by destruct (samples_trace _ _ _) as [ps [l'|e]].
Qed.

Lemma contamination_cells_col (f : frame) (s : nat) (p : nat * nat) :
  p ∈ contamination_cells f s → p.1 = s + 1.
Proof.
  unfold contamination_cells. rewrite list_elem_of_In, in_flat_map.
  intros (element & _ & Hp). apply in_map_iff in Hp as (idx & <- & _). done.
Qed.

Lemma column_trace_cells (f : frame) (s : nat) (l : locals) (p : nat * nat) :
  p ∈ (column_trace f s l).1 → p ∈ contamination_cells f s.
Proof.
  unfold column_trace.
  destruct (for_elements f s elements_to_find l) as [l'|e]; simpl;
    [|by intros ?%not_elem_of_nil].
  destruct (read (sample_to_highlight l')) as [[]|e]; simpl;
    [done|by intros ?%not_elem_of_nil..].
Qed.

Lemma samples_trace_elem_inv (f : frame) (cols : list nat) (l l_end : locals)
    (p : nat * nat) :
  (samples_trace f cols l).2 = Ok l_end →
  p ∈ (samples_trace f cols l).1 →
  ∃ s l0 l1, s ∈ cols ∧ (column_trace f s l0).2 = Ok l1 ∧
             p ∈ (column_trace f s l0).1.
Proof.
  revert l. induction cols as [|s cols IH]; intros l; simpl.
  - by intros _ ?%not_elem_of_nil.
  - destruct (column_trace f s l) as [ps [l'|e]] eqn:Et; simpl; [|done].
    intros Hok [Hp|Hp]%elem_of_app.
    + exists s, l, l'. rewrite Et. split_and!; [left|done|done].
    + destruct (IH _ Hok Hp) as (s' & l0 & l1 & Hs' & H1 & H2).
      exists s', l0, l1. split_and!; [by right|done|done].
Qed.

Lemma samples_trace_elem_intro (f : frame) (cols : list nat) (l l_end : locals)
    (s : nat) (p : nat * nat) :
  (samples_trace f cols l).2 = Ok l_end →
  s ∈ cols →
  (∀ l0 l1, (column_trace f s l0).2 = Ok l1 → p ∈ (column_trace f s l0).1) →
  p ∈ (samples_trace f cols l).1.
Proof.
  intros Hok Hs Hcol. revert l Hok.
  induction cols as [|s' cols IH]; intros l; simpl.
  - by apply not_elem_of_nil in Hs.
  - destruct (column_trace f s' l) as [ps [l'|e]] eqn:Et; simpl; [|done].
    intros Hok. apply elem_of_app.
    apply elem_of_cons in Hs as [->|Hs].
    + left. specialize (Hcol l l'). rewrite Et in Hcol. by apply Hcol.
    + right. by apply IH.
Qed.

Lemma samples_trace_raise (f : frame) (cols : list nat) (l : locals) (s : nat) :
  s ∈ cols →
  (∀ l0, ∃ e, (column_trace f s l0).2 = Raise e) →
  ∃ e, (samples_trace f cols l).2 = Raise e.
Proof.
  intros Hs Hcol. revert l.
  induction cols as [|s' cols IH]; intros l; simpl.
  - by apply not_elem_of_nil in Hs.
  - destruct (column_trace f s' l) as [ps [l'|e]] eqn:Et; simpl; [|by exists e].
    apply elem_of_cons in Hs as [->|Hs]; [|by apply IH].
    destruct (Hcol l) as [e He]. by rewrite Et in He.
Qed.

Lemma bind_Ok {A B} (a : A) (k : A → result B) : (Ok a ≫= k) = k a.
Proof. done. Qed.

Lemma judge_values_spec (v lsl usl : value) (b : option bool) :
  judge (MkLocals (Some v) (Some lsl) (Some usl) b) =
  (λ r, (MkLocals (Some v) (Some lsl) (Some usl) (Some r.1), r.2))
    <$> judge_values v lsl usl.
Proof.
  unfold judge, judge_values; simpl.
  unfold mbind, result_bind, mret, result_ret, fmap, result_fmap; simpl.
  destruct (Py.op_eq v NA); [done|].
  destruct (Py.op_lt v lsl) as [[]|e]; [done| |done].
  by destruct (Py.op_gt v usl) as [[]|e].
Qed.

Lemma read_metric_row (f : frame) (r s : nat) (v lsl usl : value) (l : locals) :
  cell f r s = Some v → cell f r 1 = Some lsl → cell f r 2 = Some usl →
  read_metric f s l (r, 0) =
  Ok (MkLocals (Some v) (Some lsl) (Some usl) (sample_to_highlight l)).
Proof.
  intros Hv Hl Hu. unfold read_metric; simpl.
  rewrite (loc_cell _ _ _ _ Hv), (loc_cell _ _ _ _ Hl), (loc_cell _ _ _ _ Hu).
  done.
Qed.

(** The two contamination rows: each label occurs once, in the first
    column; the limits sit in the next two columns. *)
Section ContaminationPair.

Variable f : frame.
Variables r1 r2 s : nat.
Variables v1 l1 u1 v2 l2 u2 : value.

Hypothesis score_row : index_of f "CONTAMINATION_SCORE (NA)" = [(r1, 0)].
Hypothesis p_value_row : index_of f "CONTAMINATION_P_VALUE (NA)" = [(r2, 0)].
Hypothesis score_lsl : cell f r1 1 = Some l1.
Hypothesis score_usl : cell f r1 2 = Some u1.
Hypothesis p_value_lsl : cell f r2 1 = Some l2.
Hypothesis p_value_usl : cell f r2 2 = Some u2.
Hypothesis score : cell f r1 s = Some v1.
Hypothesis p_value : cell f r2 s = Some v2.

Lemma contamination_cells_pair (s' : nat) :
  contamination_cells f s' = [(s' + 1, r1 + 1); (s' + 1, r2 + 1)].
Proof.
  unfold contamination_cells, elements_to_find; simpl.
  by rewrite score_row, p_value_row.
Qed.

Lemma for_elements_pair (l : locals) :
  sample_to_highlight <$> for_elements f s elements_to_find l =
  Some <$> pair_verdict v1 l1 u1 v2 l2 u2.
Proof.
  unfold elements_to_find, pair_verdict; simpl.
  rewrite score_row, p_value_row; simpl.
  rewrite (read_metric_row _ _ _ _ _ _ _ score score_lsl score_usl).
  rewrite ?bind_Ok, judge_values_spec.
  destruct (judge_values v1 l1 u1) as [[b1 [|]]|e]; simpl; [done| |done].
  rewrite ?bind_Ok; simpl.
  rewrite (read_metric_row _ _ _ _ _ _ _ p_value p_value_lsl p_value_usl).
  rewrite ?bind_Ok, judge_values_spec.
  by destruct (judge_values v2 l2 u2) as [[b2 [|]]|e].
Qed.

Lemma column_trace_pair_ok (l l' : locals) :
  (column_trace f s l).2 = Ok l' →
  ∃ b, pair_verdict v1 l1 u1 v2 l2 u2 = Ok b ∧
       (column_trace f s l).1 =
       if b then [(s + 1, r1 + 1); (s + 1, r2 + 1)] else [].
Proof.
  pose proof (for_elements_pair l) as H. unfold column_trace.
  destruct (for_elements f s elements_to_find l) as [l0|e]; simpl in *; [|done].
  destruct (pair_verdict v1 l1 u1 v2 l2 u2) as [b|e]; simpl in H; [|done].
  injection H as H. rewrite H; simpl. intros _. exists b. split; [done|].
  destruct b; simpl; [|done]. apply contamination_cells_pair.
Qed.

End ContaminationPair.

Lemma judge_values_within (L U : Py.num) (v : value) :
  within L U v = true → judge_values v (Num L) (Num U) = Ok (false, true).
Proof.
  destruct v as [x|t|]; simpl; try done. unfold outside, judge_values; simpl.
  intros [H1 H2]%negb_true_iff%orb_false_iff.
  rewrite ?bind_Ok, H1; simpl. by rewrite ?bind_Ok, H2.
Qed.

Lemma judge_values_violates (L U : Py.num) (v : value) :
  violates L U v = true → judge_values v (Num L) (Num U) = Ok (true, false).
Proof.
  destruct v as [x|t|]; simpl; try done. unfold outside, judge_values; simpl.
  rewrite ?bind_Ok. destruct (num_ltb x L); simpl; [done|].
  intros ->. done.
Qed.

Lemma judge_values_true (L U : Py.num) (v : value) (brk : bool) :
  judge_values v (Num L) (Num U) = Ok (true, brk) → violates L U v = true.
Proof.
  unfold judge_values. destruct (Py.op_eq v NA); [done|].
  destruct v as [x|t|]; simpl; try done. rewrite ?bind_Ok. unfold outside.
  destruct (num_ltb x L); simpl; [done|]. rewrite ?bind_Ok.
  by destruct (num_ltb U x).
Qed.

Lemma judge_values_break (v lsl usl : value) (b : bool) :
  judge_values v lsl usl = Ok (b, true) → b = false.
Proof.
  unfold judge_values. destruct (Py.op_eq v NA); [by intros [= <-]|].
  destruct (Py.op_lt v lsl) as [[]|e]; simpl; rewrite ?bind_Ok; try done.
  destruct (Py.op_gt v usl) as [[]|e]; simpl; by try intros [= <-].
Qed.

Lemma pair_verdict_flagged (L U : Py.num) (v1 v2 : value) :
  violates L U v1 = true → violates L U v2 = true →
  pair_verdict v1 (Num L) (Num U) v2 (Num L) (Num U) = Ok true.
Proof.
  intros H1 H2. unfold pair_verdict.
  by rewrite (judge_values_violates _ _ _ H1), bind_Ok; simpl;
     rewrite (judge_values_violates _ _ _ H2).
Qed.

Lemma pair_verdict_not_flagged (L U : Py.num) (v1 v2 : value) (b : bool) :
  within L U v1 = true ∨ violates L U v2 = false →
  pair_verdict v1 (Num L) (Num U) v2 (Num L) (Num U) = Ok b → b = false.
Proof.
  unfold pair_verdict. intros [H|H].
  - rewrite (judge_values_within _ _ _ H), bind_Ok; simpl. by intros [= <-].
  - destruct (judge_values v1 (Num L) (Num U)) as [[b1 [|]]|e] eqn:E1;
      rewrite ?bind_Ok; simpl; [|..|done].
    + intros [= <-]. by apply judge_values_break in E1.
    + destruct (judge_values v2 (Num L) (Num U)) as [[[|] brk]|e] eqn:E2;
        rewrite ?bind_Ok; simpl; [|by intros [= <-]|done].
      apply judge_values_true in E2. congruence.
Qed.

(** ** The contamination pair *)

(** C1, as the code has it: [mark_contamination_metrics] highlights both
    cells of a sample when both measurements are numeric and outside the
    shared limits [[L, U]]; it adds neither cell when the
    CONTAMINATION_SCORE value lies within the limits, or when the
    CONTAMINATION_P_VALUE value does not violate them (is NA, or lies
    within).  In particular it adds neither when no measurement
    violates, and neither when only one of the two does with the other
    within the limits. *)
Theorem contamination_pair_rule (self self' : Excel) (r1 r2 s : nat)
    (L U : Py.num) (v1 v2 : value) :
  mark_contamination_metrics self = (Ok tt, self') →
  index_of (df self) "CONTAMINATION_SCORE (NA)" = [(r1, 0)] →
  index_of (df self) "CONTAMINATION_P_VALUE (NA)" = [(r2, 0)] →
  cell (df self) r1 1 = Some (Num L) → cell (df self) r1 2 = Some (Num U) →
  cell (df self) r2 1 = Some (Num L) → cell (df self) r2 2 = Some (Num U) →
  3 ≤ s →
  cell (df self) r1 s = Some v1 → cell (df self) r2 s = Some v2 →
  (violates L U v1 = true → violates L U v2 = true →
     (s + 1, r1 + 1) ∈ highlighted self' ∧ (s + 1, r2 + 1) ∈ highlighted self')
  ∧ (within L U v1 = true ∨ violates L U v2 = false →
     ∀ p, p = (s + 1, r1 + 1) ∨ p = (s + 1, r2 + 1) →
          p ∈ highlighted self' → p ∈ highlighted self).
Proof.
  intros Hrun Hr1 Hr2 HL1 HU1 HL2 HU2 Hs Hv1 Hv2.
  rewrite mark_contamination_metrics_trace in Hrun.
  apply run_trace_inv in Hrun as (Hok & _ & _ & _ & Hh). simpl in Hok, Hh.
  destruct (samples_trace (df self) (range 3 (columns (df self))) unbound).2
    as [l_end|e] eqn:Eend; [clear Hok|done].
  assert (s ∈ range 3 (columns (df self))) as Hin.
  { apply elem_of_range. split; [done|]. by eapply cell_lt_columns. }
  pose proof (column_trace_pair_ok _ _ _ _ _ _ _ _ _ _
                Hr1 Hr2 HL1 HU1 HL2 HU2 Hv1 Hv2) as Hcol.
  split.
  - intros H1 H2.
    pose proof (pair_verdict_flagged _ _ _ _ H1 H2) as Hv.
    assert (∀ p, p ∈ [(s + 1, r1 + 1); (s + 1, r2 + 1)] → p ∈ highlighted self')
      as Hall.
    { intros p Hp. apply Hh. left.
      apply (samples_trace_elem_intro _ _ _ _ s _ Eend Hin).
      intros l0 l1 Hl0. destruct (Hcol _ _ Hl0) as (b & Hb & ->).
      rewrite Hv in Hb. by injection Hb as <-. }
    split; apply Hall; [left|right; left].
  - intros Hcond p Hp [Hin'|Hin']%Hh; [|done].
    apply (samples_trace_elem_inv _ _ _ _ _ Eend) in Hin'
      as (s' & l0 & l1 & Hs' & Hl0 & Hp').
    assert (s' = s) as ->.
    { apply column_trace_cells, contamination_cells_col in Hp'.
      destruct Hp as [-> | ->]; simpl in Hp'; lia. }
    destruct (Hcol _ _ Hl0) as (b & Hb & Hcells).
    apply (pair_verdict_not_flagged _ _ _ _ _ Hcond) in Hb as ->.
    rewrite Hcells in Hp'. by apply not_elem_of_nil in Hp'.
Qed.

Lemma contamination_pair_rule_witness :
  let self := fresh (contamination_table (Num (Fin 0.03)) (Num (Fin 0.05))) in
  (4, 1) ∈ highlighted (after mark_contamination_metrics self)
  ∧ (4, 2) ∈ highlighted (after mark_contamination_metrics self).
Proof.
  refine (proj1 (contamination_pair_rule
                   (fresh (contamination_table (Num (Fin 0.03)) (Num (Fin 0.05))))
                   _ 0 1 3 (Fin 0) (Fin 0.02) (Num (Fin 0.03)) (Num (Fin 0.05))
                   _ _ _ _ _ _ _ _ _ _) _ _);
    try reflexivity; lia.
Defined.

(** C1, scenario 3 on the code: score 0.01 within the limits and p-value
    0.05 outside them; the pass completes and highlights neither cell. *)
Lemma contamination_either_counterexample :
  let self := fresh (contamination_table (Num (Fin 0.01)) (Num (Fin 0.05))) in
  (violates (Fin 0) (Fin 0.02) (Num (Fin 0.05)) = true
   ∧ outcome mark_contamination_metrics self = Ok tt
   ∧ ((4, 1) ∉ highlighted (after mark_contamination_metrics self))
   ∧ ((4, 2) ∉ highlighted (after mark_contamination_metrics self))).
Proof.
  split_and!; try reflexivity;
    apply (bool_decide_unpack _); vm_compute; exact I.
Qed.

(** ** The NA sample value *)

Lemma other_flag_NA (f : frame) (s : nat) (idx : nat * nat) :
  loc f idx.1 s = Ok NA → other_flag f s idx ≠ Ok true.
Proof.
  intros Hv. unfold other_flag.
  destruct (loc f idx.1 (idx.2 + 1)) as [lsl|e]; [|done].
  destruct (loc f idx.1 (idx.2 + 2)) as [usl|e]; [|done].
  rewrite Hv, ?bind_Ok. change (Py.op_ne NA NA) with false.
  rewrite !andb_false_r. by destruct (Py.op_eq lsl NA && Py.op_eq usl NA).
Qed.

(** X3: the single-metric pass never highlights a sample cell that holds NA,
    whatever the limits are. *)
Lemma mark_other_metrics_NA (self self' : Excel) (r s : nat) :
  mark_other_metrics self = (Ok tt, self') →
  cell (df self) r s = Some NA →
  (s + 1, r + 1) ∈ highlighted self' → (s + 1, r + 1) ∈ highlighted self.
Proof.
  intros Hrun Hv [?|(s' & m & [r' c'] & _ & _ & _ & Hflag & Heq)]%
    (mark_other_metrics_highlighted _ _ _ Hrun); [done|].
  simpl in Heq. injection Heq as Hs' Hr'.
  assert (s' = s) as -> by lia. assert (r' = r) as -> by lia.
  by apply other_flag_NA in Hflag; [|apply loc_cell].
Qed.

(** C3 on the code, combined pass: the score is NA and the p-value 0.05 is
    above the upper limit 0.02; the pass completes and the NA cell of the
    score row is highlighted together with the p-value cell. *)
Theorem contamination_NA_cell_highlighted :
  let self := fresh (contamination_table NA (Num (Fin 0.05))) in
  (cell (df self) 0 3 = Some NA
   ∧ outcome mark_contamination_metrics self = Ok tt
   ∧ (4, 1) ∈ highlighted (after mark_contamination_metrics self)
   ∧ (4, 2) ∈ highlighted (after mark_contamination_metrics self)).
Proof.
  split_and!; try reflexivity;
    apply (bool_decide_unpack _); vm_compute; exact I.
Qed.

(** ** The single-metric rules *)

Lemma other_flag_cells (f : frame) (r c s : nat) (lsl usl v : value) :
  cell f r (c + 1) = Some lsl → cell f r (c + 2) = Some usl →
  cell f r s = Some v →
  other_flag f s (r, c) =
  if Py.op_eq lsl NA && Py.op_eq usl NA then Ok false
  else if Py.op_eq lsl NA && Py.op_ne v NA then Py.op_gt v usl
  else if Py.op_eq usl NA && Py.op_ne v NA then Py.op_lt v lsl
  else if Py.op_ne v NA then
    below ← Py.op_lt v lsl; if (below : bool) then Ok true else Py.op_gt v usl
  else Ok false.
Proof.
  intros Hl Hu Hv. unfold other_flag; simpl.
  by rewrite (loc_cell _ _ _ _ Hl), (loc_cell _ _ _ _ Hu), (loc_cell _ _ _ _ Hv).
Qed.

(** C4, as the code has it: in a row whose only configured label is at
    column [c], with numeric limits [L] (one column right of the label)
    and [U] (two columns right), the cell of a sample column [s >= 3] with
    numeric value [v] is highlighted by the pass exactly when [v < L] or
    [v > U]; when moreover [L <= U], a value equal to [L] or to [U] is not
    highlighted. *)
Theorem two_sided_rule (self self' : Excel) (metric : string) (r c s : nat)
    (L U v : Py.num) :
  mark_other_metrics self = (Ok tt, self') →
  metric ∈ metrics_to_find →
  cell (df self) r c = Some (Str metric) →
  (∀ m c', m ∈ metrics_to_find → cell (df self) r c' = Some (Str m) → c' = c) →
  cell (df self) r (c + 1) = Some (Num L) →
  cell (df self) r (c + 2) = Some (Num U) →
  3 ≤ s → cell (df self) r s = Some (Num v) →
  (s + 1, r + 1) ∉ highlighted self →
  ((s + 1, r + 1) ∈ highlighted self' ↔
     num_ltb v L = true ∨ num_ltb U v = true)
  ∧ (num_leb L U = true → num_eqb v L = true ∨ num_eqb v U = true →
     (s + 1, r + 1) ∉ highlighted self').
Proof.
  intros Hrun Hm Hc Huniq HL HU Hs Hv Hnew.
  pose proof (mark_other_metrics_row _ _ _ _ _ _ Hrun Hm Hc Huniq Hnew) as Hrow.
  rewrite (other_flag_cells _ _ _ _ _ _ _ HL HU Hv) in Hrow. simpl in Hrow.
  rewrite ?bind_Ok in Hrow.
  assert ((s + 1, r + 1) ∈ highlighted self' ↔
          num_ltb v L = true ∨ num_ltb U v = true) as Hiff.
  { rewrite Hrow. pose proof (cell_lt_columns _ _ _ _ Hv) as Hlt.
    destruct (num_ltb v L).
    - split; [by left|]. intros _. split; [lia|done].
    - split.
      + intros [_ H]. injection H as H. by right.
      + intros [?|H]; [done|]. rewrite H. split; [lia|done]. }
  split; [done|].
  intros Hle Heq. rewrite Hiff. intros [Hlt|Hlt].
  - destruct Heq as [Heq|Heq].
    + by rewrite (num_ltb_irrefl _ _ Heq) in Hlt.
    + rewrite (num_ltb_eqb_l _ _ L Heq), (num_ltb_leb_false _ _ Hle) in Hlt. done.
  - destruct Heq as [Heq|Heq].
    + rewrite (num_ltb_eqb_r U _ _ Heq), (num_ltb_leb_false _ _ Hle) in Hlt. done.
    + rewrite num_eqb_sym in Heq. by rewrite (num_ltb_irrefl _ _ Heq) in Hlt.
Qed.

Lemma two_sided_rule_witness :
  let self := fresh (metric_table (Num (Fin 100)) (Num (Fin 500)) (Num (Fin 50))) in
  (4, 1) ∈ highlighted (after mark_other_metrics self).
Proof.
  intros self.
  refine (proj2 (proj1 (two_sided_rule self (after mark_other_metrics self)
                          "MEDIAN_INSERT_SIZE (bp)" 0 0 3 (Fin 100) (Fin 500) (Fin 50)
                          _ _ _ _ _ _ _ _ _)) _).
  - reflexivity.
  - left.
  - reflexivity.
  - intros m [|[|[|[|c']]]] _ H; cbv in H; [reflexivity|discriminate..].
  - reflexivity.
  - reflexivity.
  - lia.
  - reflexivity.
  - apply (bool_decide_unpack _). vm_compute. exact I.
  - left. reflexivity.
Defined.

(** C4 on the code: with limits [L = 5] and [U = 3], the sample value 5
    equals [L] and is highlighted, since it is above [U]. *)
Lemma boundary_value_counterexample :
  let self := fresh (metric_table (Num (Fin 5)) (Num (Fin 3)) (Num (Fin 5))) in
  (cell (df self) 0 1 = Some (Num (Fin 5))
   ∧ cell (df self) 0 2 = Some (Num (Fin 3))
   ∧ cell (df self) 0 3 = Some (Num (Fin 5))
   ∧ num_eqb (Fin 5) (Fin 5) = true
   ∧ outcome mark_other_metrics self = Ok tt
   ∧ (4, 1) ∈ highlighted (after mark_other_metrics self)).
Proof.
  split_and!; reflexivity.
Qed.

(** C5: in a row whose only configured label is at column [c], for a
    sample column [s >= 3] with numeric value [v]: when the upper limit is
    NA and the lower limit [L] is numeric the cell is highlighted exactly
    when [v < L]; when the lower limit is NA and the upper limit [U] is
    numeric, exactly when [v > U]; when both limits are NA no cell of the
    row is highlighted. *)
Theorem one_sided_rules (self self' : Excel) (metric : string) (r c s : nat)
    (v : Py.num) :
  mark_other_metrics self = (Ok tt, self') →
  metric ∈ metrics_to_find →
  cell (df self) r c = Some (Str metric) →
  (∀ m c', m ∈ metrics_to_find → cell (df self) r c' = Some (Str m) → c' = c) →
  3 ≤ s → cell (df self) r s = Some (Num v) →
  (s + 1, r + 1) ∉ highlighted self →
  (∀ L, cell (df self) r (c + 1) = Some (Num L) →
        cell (df self) r (c + 2) = Some NA →
        ((s + 1, r + 1) ∈ highlighted self' ↔ num_ltb v L = true))
  ∧ (∀ U, cell (df self) r (c + 1) = Some NA →
          cell (df self) r (c + 2) = Some (Num U) →
          ((s + 1, r + 1) ∈ highlighted self' ↔ num_ltb U v = true))
  ∧ (cell (df self) r (c + 1) = Some NA →
     cell (df self) r (c + 2) = Some NA →
     ∀ s', (s' + 1, r + 1) ∈ highlighted self' →
           (s' + 1, r + 1) ∈ highlighted self).
Proof.
  intros Hrun Hm Hc Huniq Hs Hv Hnew.
  pose proof (mark_other_metrics_row _ _ _ _ _ _ Hrun Hm Hc Huniq Hnew) as Hrow.
  pose proof (cell_lt_columns _ _ _ _ Hv) as Hlt.
  split_and!.
  - intros L HL HU. rewrite Hrow, (other_flag_cells _ _ _ _ _ _ _ HL HU Hv).
    simpl. split; [by intros [_ [= ->]]|]. intros ->. split; [lia|done].
  - intros U HL HU. rewrite Hrow, (other_flag_cells _ _ _ _ _ _ _ HL HU Hv).
    simpl. split; [by intros [_ [= ->]]|]. intros ->. split; [lia|done].
  - intros HL HU s'
      [?|(s'' & m & [r' c'] & _ & Hm' & Hi & Hflag & Heq)]%
      (mark_other_metrics_highlighted _ _ _ Hrun); [done|].
    simpl in Heq. injection Heq as Hs' Hr'.
    assert (s'' = s') as -> by lia. assert (r' = r) as -> by lia.
    apply index_of_spec in Hi. rewrite (Huniq m c' Hm' Hi) in Hflag.
    unfold other_flag in Hflag; simpl in Hflag.
    rewrite (loc_cell _ _ _ _ HL), (loc_cell _ _ _ _ HU), ?bind_Ok in Hflag.
    by destruct (loc (df self) r s').
Qed.

Lemma one_sided_rules_witness :
  let self := fresh (metric_table (Num (Fin 100)) NA (Num (Fin 50))) in
  (4, 1) ∈ highlighted (after mark_other_metrics self).
Proof.
  intros self.
  refine (proj2 (proj1 (one_sided_rules self (after mark_other_metrics self)
                          "MEDIAN_INSERT_SIZE (bp)" 0 0 3 (Fin 50)
                          _ _ _ _ _ _ _) (Fin 100) _ _) _).
  - reflexivity.
  - left.
  - reflexivity.
  - intros m [|[|[|[|c']]]] Hm H; cbv in H;
      [reflexivity|discriminate| |discriminate..].
    injection H as <-. exfalso. revert Hm.
    apply (bool_decide_unpack _). vm_compute. exact I.
  - lia.
  - reflexivity.
  - apply (bool_decide_unpack _). vm_compute. exact I.
  - reflexivity.
  - reflexivity.
  - reflexivity.
Defined.

(** ** Text in a sample cell *)

Lemma py_ne_text (t : string) : t ≠ "NA" → Py.op_ne (Str t) NA = true.
Proof.
  intros H. unfold Py.op_ne; simpl. apply negb_true_iff.
  by apply String.eqb_neq.
Qed.

Lemma other_flag_text (f : frame) (r c s : nat) (t : string) (lsl usl : value) :
  t ≠ "NA" →
  cell f r s = Some (Str t) →
  cell f r (c + 1) = Some lsl → cell f r (c + 2) = Some usl →
  (is_num lsl ∧ (is_num usl ∨ usl = NA)) ∨ (lsl = NA ∧ is_num usl) →
  other_flag f s (r, c) = Raise TypeError.
Proof.
  intros Ht Hv Hl Hu Hlim. rewrite (other_flag_cells _ _ _ _ _ _ _ Hl Hu Hv).
  rewrite (py_ne_text _ Ht).
  destruct Hlim as [[[L ->] [[U ->]| ->]]|[-> [U ->]]]; reflexivity.
Qed.

Lemma mark_other_metrics_raises (self : Excel) (r c s : nat) (metric : string)
    (e : exn) :
  metric ∈ metrics_to_find →
  cell (df self) r c = Some (Str metric) →
  3 ≤ s < columns (df self) →
  other_flag (df self) s (r, c) = Raise e →
  ∃ e' self', mark_other_metrics self = (Raise e', self').
Proof.
  intros Hm Hc Hs Hflag. rewrite mark_other_metrics_trace.
  assert (∃ e', (other_trace (df self)).2 = Raise e') as [e' He'].
  { unfold other_trace.
    assert (∃ e1, (trace_for (index_of (df self) metric)
                     (λ idx, flag_trace (s + 1, idx.1 + 1)
                               (other_flag (df self) s idx))).2 = Raise e1)
      as [e1 He1].
    { apply trace_for_raise with (x := (r, c)) (e := e).
      - by apply index_of_spec.
      - by rewrite Hflag. }
    assert (∃ e2, (trace_for metrics_to_find (λ metric,
                     trace_for (index_of (df self) metric)
                       (λ idx, flag_trace (s + 1, idx.1 + 1)
                                 (other_flag (df self) s idx)))).2 = Raise e2)
      as [e2 He2].
    { by apply trace_for_raise with (x := metric) (e := e1). }
    apply trace_for_raise with (x := s) (e := e2); [|done].
    by apply elem_of_range. }
  exists e', (highlight_all (other_trace (df self)).1 self).
  unfold run_trace. by rewrite He'.
Qed.

Lemma column_trace_text (f : frame) (r s : nat) (t : string) (L : Py.num)
    (usl : value) (l : locals) :
  t ≠ "NA" →
  index_of f "CONTAMINATION_SCORE (NA)" = [(r, 0)] →
  cell f r s = Some (Str t) →
  cell f r 1 = Some (Num L) → cell f r 2 = Some usl →
  (column_trace f s l).2 = Raise TypeError.
Proof.
  intros Ht Hr Hv Hl Hu. unfold column_trace, elements_to_find; simpl.
  rewrite Hr; simpl. rewrite (read_metric_row _ _ _ _ _ _ _ Hv Hl Hu).
  rewrite ?bind_Ok, judge_values_spec. unfold judge_values.
  assert (Py.op_eq (Str t) NA = false) as -> by (by apply String.eqb_neq).
  done.
Qed.

(** C6, as the code has it: a sample cell that holds a text other than NA
    makes the comparison raise [TypeError], and the pass that reaches it
    does not complete.  [mark_other_metrics] raises whenever such a cell
    sits in a configured metric row whose limits are numeric, or one
    numeric and the other NA; [mark_contamination_metrics] raises whenever
    it sits in the CONTAMINATION_SCORE row and the lower limit is
    numeric. *)
Theorem text_sample_raises (self : Excel) (r s : nat) (t : string) :
  t ≠ "NA" → 3 ≤ s → cell (df self) r s = Some (Str t) →
  (∀ metric c lsl usl,
     metric ∈ metrics_to_find →
     cell (df self) r c = Some (Str metric) →
     cell (df self) r (c + 1) = Some lsl →
     cell (df self) r (c + 2) = Some usl →
     (is_num lsl ∧ (is_num usl ∨ usl = NA)) ∨ (lsl = NA ∧ is_num usl) →
     other_flag (df self) s (r, c) = Raise TypeError
     ∧ ∃ e self', mark_other_metrics self = (Raise e, self'))
  ∧ (∀ L,
       index_of (df self) "CONTAMINATION_SCORE (NA)" = [(r, 0)] →
       cell (df self) r 1 = Some (Num L) →
       ∃ e self', mark_contamination_metrics self = (Raise e, self')).
Proof.
  intros Ht Hs Hv. pose proof (cell_lt_columns _ _ _ _ Hv) as Hlt. split.
  - intros metric c lsl usl Hm Hc Hl Hu Hlim.
    pose proof (other_flag_text _ _ _ _ _ _ _ Ht Hv Hl Hu Hlim) as Hflag.
    split; [done|]. by eapply mark_other_metrics_raises.
  - intros L Hr Hl.
    assert (∃ usl, cell (df self) r 2 = Some usl) as [usl Hu].
    { unfold cell in *. destruct (df self !! r) as [cells|]; simpl in *; [|done].
      apply lookup_lt_Some in Hv. apply lookup_lt_is_Some. lia. }
    rewrite mark_contamination_metrics_trace. simpl.
    destruct (samples_trace_raise (df self) (range 3 (columns (df self)))
                unbound s) as [e He].
    { by apply elem_of_range. }
    { intros l0. exists TypeError. by eapply column_trace_text. }
    eexists e, _. unfold run_trace; simpl. by rewrite He.
Qed.

Lemma text_sample_raises_witness :
  let self := fresh (metric_table (Num (Fin 100)) (Num (Fin 500)) (Str "n/a")) in
  ∃ e self', mark_other_metrics self = (Raise e, self').
Proof.
  intros self.
  refine (proj2 (proj1 (text_sample_raises self 0 3 "n/a" _ _ _)
                   "MEDIAN_INSERT_SIZE (bp)" 0 (Num (Fin 100)) (Num (Fin 500))
                   _ _ _ _ _)).
  - discriminate.
  - lia.
  - reflexivity.
  - left.
  - reflexivity.
  - reflexivity.
  - reflexivity.
  - left. split; [by exists (Fin 100)|left; by exists (Fin 500)].
Defined.

(** C6 on the code: a metric row with limits 100 and 500 and the text
    [n/a] in its sample cell; the pass ends in a [TypeError]. *)
Lemma text_sample_counterexample :
  let self := fresh (metric_table (Num (Fin 100)) (Num (Fin 500)) (Str "n/a")) in
  (cell (df self) 0 3 = Some (Str "n/a")
   ∧ outcome mark_other_metrics self = Raise TypeError).
Proof. split; reflexivity. Qed.

(** ** A configured label that is missing *)

Lemma trace_for_nil_bodies {A} (xs : list A) (t : A → trace unit) :
  (∀ x, x ∈ xs → t x = ([], Ok tt)) → trace_for xs t = ([], Ok tt).
Proof.
  induction xs as [|x xs IH]; intros H; simpl; [done|].
  rewrite (H x) by left. simpl. rewrite IH; [done|].
  intros y Hy. apply H. by right.
Qed.

(** X12: without any of its labels in the table, the single-metric pass returns
    and changes nothing. *)
Lemma mark_other_metrics_no_label (self : Excel) :
  (∀ metric, metric ∈ metrics_to_find → index_of (df self) metric = []) →
  mark_other_metrics self = (Ok tt, self).
Proof.
  intros Hnone. rewrite mark_other_metrics_trace. unfold other_trace.
  rewrite trace_for_nil_bodies; [symmetry; apply run_trace_ok_nil|].
  intros s _. apply trace_for_nil_bodies. intros metric Hm.
  by rewrite (Hnone metric Hm).
Qed.

(** Without the CONTAMINATION_SCORE label, and with at least one sample
    column, the combined pass reads [value_to_compare] before any
    assignment to it. *)
Lemma mark_contamination_metrics_no_label (self : Excel) :
  index_of (df self) "CONTAMINATION_SCORE (NA)" = [] →
  3 < columns (df self) →
  mark_contamination_metrics self = (Raise UnboundLocalError, self).
Proof.
  intros Hnone Hcols. rewrite mark_contamination_metrics_trace.
  unfold range. destruct (columns (df self) - 3) as [|n] eqn:E; [lia|].
  simpl. unfold column_trace, elements_to_find; simpl. rewrite Hnone; simpl.
  unfold run_trace; simpl. by rewrite highlight_all_nil.
Qed.

(** C9 on the code: a table with one sample column and no contamination
    label; [mark_contamination_metrics] ends in an [UnboundLocalError]. *)
Theorem missing_contamination_label_raises :
  let self := fresh (metric_table (Num (Fin 100)) (Num (Fin 500)) (Num (Fin 300))) in
  (index_of (df self) "CONTAMINATION_SCORE (NA)" = []
   ∧ index_of (df self) "CONTAMINATION_P_VALUE (NA)" = []
   ∧ outcome mark_contamination_metrics self = Raise UnboundLocalError).
Proof. split_and!; reflexivity. Qed.

(** ** [mark_false] *)

Lemma mark_false_unfold (self : Excel) :
  mark_false self = for_each (index_of (df self) "FALSE") mark_false_cell self.
Proof. reflexivity. Qed.

Lemma mark_false_cell_status_row (idx : nat * nat) (self : Excel) :
  idx.1 + 1 = 17 →
  mark_false_cell idx self = run_trace ([(idx.2 + 1, idx.1 + 1)], Ok tt) self.
Proof.
  intros H. unfold mark_false_cell. rewrite decide_False by lia.
  unfold mbind, M_bind, lift, highlight_cell, modify_self.
  rewrite get_column_letter_succ. trace_done.
Qed.

Lemma mark_false_cell_elsewhere (idx : nat * nat) (self : Excel) :
  idx.1 + 1 ≠ 17 →
  mark_false_cell idx self = (Raise TypeError, set_file_exists false self).
Proof. intros H. unfold mark_false_cell. by rewrite decide_True. Qed.

Lemma mark_false_loop_ok (indices : list (nat * nat)) (self : Excel) :
  (∀ idx, idx ∈ indices → idx.1 + 1 = 17) →
  for_each indices mark_false_cell self =
  (Ok tt, highlight_all (map (λ idx, (idx.2 + 1, idx.1 + 1)) indices) self).
Proof.
  intros Hrow.
  rewrite for_each_trace with
    (f := df self) (t := λ idx, ([(idx.2 + 1, idx.1 + 1)], Ok tt)); [| |done].
  - by rewrite trace_for_all_ok, flat_map_singleton.
  - intros idx self1 Hidx _. by apply mark_false_cell_status_row, Hrow.
Qed.

Lemma mark_false_loop_raises (indices : list (nat * nat)) (self : Excel) :
  (∃ idx, idx ∈ indices ∧ idx.1 + 1 ≠ 17) →
  ∃ self', for_each indices mark_false_cell self = (Raise TypeError, self')
           ∧ file_exists self' = false.
Proof.
  revert self. induction indices as [|idx indices IH]; intros self.
  - by intros (idx & ?%not_elem_of_nil & _).
  - intros Hbad. simpl. unfold mbind, M_bind.
    destruct (decide (idx.1 + 1 = 17)) as [Hrow|Hrow].
    + rewrite (mark_false_cell_status_row _ _ Hrow). unfold run_trace; simpl.
      apply IH. destruct Hbad as (idx' & [->|Hin]%elem_of_cons & Hne); [done|].
      by exists idx'.
    + rewrite (mark_false_cell_elsewhere _ _ Hrow). by eexists.
Qed.

(** C2: when the text FALSE occurs only in row 17, [mark_false] returns,
    leaves the file in place and has every such cell highlighted; when it
    occurs in any other row, [mark_false] raises [TypeError] and the file
    has been removed. *)
Theorem mark_false_integrity (self : Excel) :
  ((∀ r c, cell (df self) r c = Some (Str "FALSE") → r + 1 = 17) →
   ∃ self', mark_false self = (Ok tt, self')
            ∧ file_exists self' = file_exists self
            ∧ ∀ r c, cell (df self) r c = Some (Str "FALSE") →
                     (c + 1, r + 1) ∈ highlighted self')
  ∧ ((∃ r c, cell (df self) r c = Some (Str "FALSE") ∧ r + 1 ≠ 17) →
     ∃ self', mark_false self = (Raise TypeError, self')
              ∧ file_exists self' = false).
Proof.
  rewrite mark_false_unfold. split.
  - intros Honly. eexists. split; [apply mark_false_loop_ok|split; [done|]].
    + intros [r c] Hidx%index_of_spec. by apply (Honly r c).
    + intros r c Hc%index_of_spec. simpl.
      apply elem_of_union_l, elem_of_list_to_set, list_elem_of_In.
      apply in_map_iff. exists (r, c). split; [done|].
      by apply list_elem_of_In.
  - intros (r & c & Hc%index_of_spec & Hne).
    apply mark_false_loop_raises. by exists (r, c).
Qed.

Lemma mark_false_integrity_witness :
  (5, 17) ∈ highlighted (after mark_false (fresh status_table))
  ∧ outcome mark_false (fresh misplaced_status_table) = Raise TypeError
  ∧ file_exists (after mark_false (fresh misplaced_status_table)) = false.
Proof.
  split.
  - destruct (proj1 (mark_false_integrity (fresh status_table)))
      as (self' & Hrun & _ & Hall).
    + intros r c Hc%index_of_spec.
      change (index_of (df (fresh status_table)) "FALSE") with [(16, 4)] in Hc.
      apply list_elem_of_singleton in Hc. by injection Hc as -> _.
    + unfold after. rewrite Hrun. by apply (Hall 16 4).
  - destruct (proj2 (mark_false_integrity (fresh misplaced_status_table)))
      as (self' & Hrun & Hfile).
    + by exists 15, 4.
    + unfold outcome, after. by rewrite Hrun.
Defined.

(** After a stray FALSE the whole of [modify] stops in [mark_false]:
    nothing is saved and the file is gone. *)
Lemma modify_aborts_on_stray_FALSE (self self1 : Excel) :
  move_rows self = (Ok tt, self1) →
  (∃ r c, cell (df self1) r c = Some (Str "FALSE") ∧ r + 1 ≠ 17) →
  ∃ self', modify self = (Raise TypeError, self') ∧ file_exists self' = false.
Proof.
  intros Hmove (r & c & Hc%index_of_spec & Hne).
  destruct (mark_false_loop_raises (index_of (df self1) "FALSE") self1)
    as (self' & Hrun & Hfile); [by exists (r, c)|].
  exists self'. split; [|done].
  unfold modify, mbind, M_bind. by rewrite Hmove, mark_false_unfold, Hrun.
Qed.

(** ** [move_rows] *)

Lemma move_rows_ok (self : Excel) :
  4 ≤ max_column (ws self) →
  move_rows self =
  (Ok tt,
   let s' := move_range (ws self) (status_range (ws self)) 2 in
   MkExcel s' (DataFrame s') (highlighted self) (file_exists self)).
Proof.
  intros Hcols. unfold move_rows, mbind, M_bind, gets, lift, modify_self.
  unfold get_column_letter.
  destruct (Z.leb_spec 1 (Z.of_nat (max_column (ws self)) - 2)); [|lia].
  replace (Z.to_nat (Z.of_nat (max_column (ws self)) - 2))
    with (max_column (ws self) - 2) by lia.
  unfold cell_range. rewrite decide_True by lia. done.
Qed.

Lemma move_rows_raises (self : Excel) :
  max_column (ws self) < 4 →
  move_rows self = (Raise ValueError, self).
Proof.
  intros Hcols. unfold move_rows, mbind, M_bind, gets, lift, modify_self.
  unfold get_column_letter.
  destruct (Z.leb_spec 1 (Z.of_nat (max_column (ws self)) - 2)); [|done].
  replace (Z.to_nat (Z.of_nat (max_column (ws self)) - 2))
    with (max_column (ws self) - 2) by lia.
  unfold cell_range. rewrite decide_False by lia. done.
Qed.

(** X14: [move_rows] raises [ValueError] exactly when the worksheet has
    fewer than 4 columns, whatever its row count. *)
Lemma move_rows_raises_iff (self : Excel) :
  outcome move_rows self = Raise ValueError ↔ max_column (ws self) < 4.
Proof.
  unfold outcome. split.
  - intros H. destruct (decide (max_column (ws self) < 4)) as [|Hge]; [done|].
    rewrite move_rows_ok in H by lia. done.
  - intros H. by rewrite move_rows_raises.
Qed.

Lemma length_move_range (s : sheet) (rng : CellRange) (k : nat) :
  length (move_range s rng k) = Nat.max (sheet_max_row s) (max_row rng).
Proof. unfold move_range. by rewrite length_map, length_seq. Qed.

Lemma length_DataFrame (s : sheet) : length (DataFrame s) = length s.
Proof. unfold DataFrame. by rewrite length_map. Qed.

(** C7, as the code has it: on a worksheet of fewer than 19 rows and at
    least 4 columns [move_rows] raises nothing; it returns with the
    worksheet and the frame extended to 19 rows, and the file and the
    highlights as they were. *)
Theorem move_rows_extends_short_grid (self : Excel) :
  length (ws self) < 19 → 4 ≤ columns (ws self) →
  ∃ self', move_rows self = (Ok tt, self')
           ∧ length (ws self') = 19 ∧ length (df self') = 19
           ∧ highlighted self' = highlighted self
           ∧ file_exists self' = file_exists self.
Proof.
  intros Hrows Hcols. eexists. split.
  - apply move_rows_ok. unfold max_column. lia.
  - simpl. rewrite length_DataFrame, length_move_range.
    unfold sheet_max_row, status_range; simpl. split_and!; [lia|lia|done|done].
Qed.

Lemma move_rows_extends_short_grid_witness :
  outcome move_rows (init short_sheet) = Ok tt
  ∧ length (ws (after move_rows (init short_sheet))) = 19.
Proof.
  destruct (move_rows_extends_short_grid (init short_sheet))
    as (self' & Hrun & Hlen & _).
  - simpl. lia.
  - simpl. lia.
  - unfold outcome, after. rewrite Hrun. by split.
Defined.

(** C7 on the code: a worksheet of three rows; [move_rows] returns and the
    whole of [modify] goes on to the scanners. *)
Lemma short_grid_counterexample :
  length short_sheet < 16
  ∧ outcome move_rows (init short_sheet) = Ok tt
  ∧ outcome (move_rows;; mark_false) (init short_sheet) = Ok tt.
Proof. split_and!; [simpl; lia|reflexivity|reflexivity]. Qed.

Lemma cell_value_table (g : nat → nat → value) (nrows ncols row col : nat) :
  cell_value (map (λ r, map (λ c, g r c) (seq 1 ncols)) (seq 1 nrows)) row col =
  if decide (1 ≤ row ≤ nrows ∧ 1 ≤ col ≤ ncols) then g row col else NoneV.
Proof.
  destruct row as [|r]; [by rewrite decide_False by lia|].
  destruct col as [|c]; [by rewrite decide_False by lia|].
  unfold cell_value, sheet.
  change (map (λ r, map (λ c, g r c) (seq 1 ncols)) (seq 1 nrows))
    with ((λ r, (λ c, g r c) <$> seq 1 ncols) <$> seq 1 nrows).
  rewrite list_lookup_fmap.
  destruct (decide (r < nrows)) as [Hr|Hr].
  - rewrite lookup_seq_lt by done. simpl. rewrite list_lookup_fmap.
    destruct (decide (c < ncols)) as [Hc|Hc].
    + rewrite lookup_seq_lt by done. simpl. by rewrite decide_True by lia.
    + rewrite lookup_seq_ge by lia. simpl. by rewrite decide_False by lia.
  - rewrite lookup_seq_ge by lia. simpl. by rewrite decide_False by lia.
Qed.

Lemma cell_value_beyond (s : sheet) (row col : nat) :
  length s < row ∨ columns s < col → cell_value s row col = NoneV.
Proof.
  destruct row as [|r], col as [|c]; simpl; try done.
  intros H. destruct (s !! r) as [cells|] eqn:Er; simpl; [|done].
  destruct (cells !! c) as [v|] eqn:Ec; simpl; [|done].
  apply lookup_lt_Some in Ec. pose proof (columns_ge _ _ _ Er).
  apply lookup_lt_Some in Er. lia.
Qed.

Lemma cell_value_move_range (s : sheet) (rng : CellRange) (k row col : nat) :
  1 ≤ min_row rng → 1 ≤ min_col rng →
  cell_value (move_range s rng k) row col = moved_value s rng k row col.
Proof.
  intros Hr Hc. unfold move_range. rewrite cell_value_table.
  case_decide as Hin; [done|].
  unfold moved_value, in_range, shift, sheet_max_row, max_column in *; simpl.
  rewrite !bool_decide_eq_false_2 by lia.
  destruct (decide (row = 0)) as [->|?]; [done|].
  destruct (decide (col = 0)) as [->|?]; [by destruct row|].
  rewrite cell_value_beyond; [done|lia].
Qed.

(** C8, as the code has it: on a worksheet of at least 4 columns, of
    which [n] is the last, [move_rows] moves the cells of rows 16 to 19 in
    columns 2 to [n - 2] right by exactly 2 columns, leaves the vacated
    positions without a value ([None], which is not the text NA), and
    leaves every other cell as it was. *)
Theorem move_rows_shifts_block (self : Excel) :
  4 ≤ max_column (ws self) →
  ∃ self', move_rows self = (Ok tt, self')
    ∧ df self' = DataFrame (ws self')
    ∧ (∀ row col, 16 ≤ row ≤ 19 → 2 ≤ col ≤ max_column (ws self) - 2 →
         cell_value (ws self') row (col + 2) = cell_value (ws self) row col)
    ∧ (∀ row col, 16 ≤ row ≤ 19 → 2 ≤ col ≤ max_column (ws self) - 2 →
         col < 4 → cell_value (ws self') row col = NoneV)
    ∧ (∀ row col,
         ¬ (16 ≤ row ≤ 19) ∨ col < 2 ∨ max_column (ws self) < col
         ∨ max_column (ws self) - 2 < col < 4 →
         cell_value (ws self') row col = cell_value (ws self) row col).
Proof.
  intros Hcols. eexists. split; [by apply move_rows_ok|]. simpl.
  split; [done|].
  split_and!; intros row col; intros;
    rewrite cell_value_move_range by (simpl; lia);
    unfold moved_value, in_range, shift, status_range; simpl.
  - rewrite bool_decide_eq_true_2 by lia. f_equal. lia.
  - rewrite bool_decide_eq_false_2 by lia.
    by rewrite bool_decide_eq_true_2 by lia.
  - by rewrite !bool_decide_eq_false_2 by lia.
Qed.

Lemma move_rows_shifts_block_witness :
  cell_value (ws (after move_rows (init status_sheet))) 16 4 = Str "b"
  ∧ cell_value (ws (after move_rows (init status_sheet))) 16 2 = NoneV.
Proof.
  destruct (move_rows_shifts_block (init status_sheet))
    as (self' & Hrun & _ & Hmoved & Hvacated & _).
  - vm_compute. lia.
  - unfold after. rewrite Hrun. split.
    + apply (Hmoved 16 2); vm_compute; lia.
    + apply (Hvacated 16 2); vm_compute; lia.
Defined.

(** C8 on the code: [move_rows] applied to its own result shifts the block
    again, so the text moved to column 4 of row 16 is found in column 6
    after the second application; and the vacated cell holds [None], not
    the text NA. *)
Lemma move_rows_twice_counterexample :
  let once := after move_rows (init status_sheet) in
  let twice := after move_rows once in
  (outcome move_rows (init status_sheet) = Ok tt
   ∧ outcome move_rows once = Ok tt
   ∧ cell_value (ws once) 16 4 = Str "b"
   ∧ cell_value (ws twice) 16 4 = NoneV
   ∧ cell_value (ws twice) 16 6 = Str "b"
   ∧ ws twice ≠ ws once
   ∧ cell_value (ws once) 16 2 = NoneV
   ∧ NoneV ≠ NA).
Proof.
  split_and!; first [reflexivity | discriminate].
Qed.

(** ** The passes return on well-typed tables *)

Lemma other_flag_comparable (f : frame) (r c s : nat) (lsl usl v : value) :
  cell f r (c + 1) = Some lsl → cell f r (c + 2) = Some usl →
  cell f r s = Some v →
  comparable lsl → comparable usl → comparable v →
  ∃ b, other_flag f s (r, c) = Ok b.
Proof.
  intros Hl Hu Hv Cl Cu Cv. rewrite (other_flag_cells _ _ _ _ _ _ _ Hl Hu Hv).
  destruct Cl as [[L ->]| ->], Cu as [[U ->]| ->], Cv as [[x ->]| ->];
    simpl; rewrite ?bind_Ok; try destruct (num_ltb x L); by eexists.
Qed.

(** X6: when the limits and the sample cells of every configured metric row
    are numbers or NA, [mark_other_metrics] returns. *)
Lemma mark_other_metrics_completes (self : Excel) :
  (∀ metric r c s,
     metric ∈ metrics_to_find → cell (df self) r c = Some (Str metric) →
     3 ≤ s < columns (df self) →
     ∃ lsl usl v,
       cell (df self) r (c + 1) = Some lsl ∧ cell (df self) r (c + 2) = Some usl
       ∧ cell (df self) r s = Some v
       ∧ comparable lsl ∧ comparable usl ∧ comparable v) →
  ∃ self', mark_other_metrics self = (Ok tt, self').
Proof.
  intros Htyped. rewrite mark_other_metrics_trace.
  assert ((other_trace (df self)).2 = Ok tt) as Hok.
  { unfold other_trace. apply trace_for_ok. intros s Hs%elem_of_range.
    apply trace_for_ok. intros metric Hm.
    apply trace_for_ok. intros [r c] Hidx%index_of_spec.
    destruct (Htyped metric r c s Hm Hidx Hs)
      as (lsl & usl & v & Hl & Hu & Hv & Cl & Cu & Cv).
    destruct (other_flag_comparable _ _ _ _ _ _ _ Hl Hu Hv Cl Cu Cv) as [b Hb].
    simpl. rewrite Hb. by destruct b. }
  eexists. unfold run_trace. by rewrite Hok.
Qed.

Lemma judge_values_comparable (v : value) (L U : Py.num) :
  comparable v → ∃ r, judge_values v (Num L) (Num U) = Ok r.
Proof.
  intros [[x ->]| ->]; [|by eexists]. unfold judge_values; simpl.
  rewrite ?bind_Ok. destruct (num_ltb x L); simpl; [by eexists|].
  rewrite ?bind_Ok. destruct (num_ltb U x); by eexists.
Qed.

Lemma samples_trace_ok (f : frame) (cols : list nat) (l : locals) :
  (∀ s l0, s ∈ cols → ∃ l1, (column_trace f s l0).2 = Ok l1) →
  ∃ l_end, (samples_trace f cols l).2 = Ok l_end.
Proof.
  revert l. induction cols as [|s cols IH]; intros l Hcols; simpl.
  - by eexists.
  - destruct (Hcols s l ltac:(left)) as [l1 Hl1]. rewrite Hl1. simpl.
    apply IH. intros s' l0 Hs'. apply Hcols. by right.
Qed.

(** X7: when each contamination label occurs once, in the first column, with
    numeric limits, and every sample cell of the two rows is a number or
    NA, [mark_contamination_metrics] returns. *)
Lemma mark_contamination_metrics_completes (self : Excel) (r1 r2 : nat)
    (L1 U1 L2 U2 : Py.num) :
  index_of (df self) "CONTAMINATION_SCORE (NA)" = [(r1, 0)] →
  index_of (df self) "CONTAMINATION_P_VALUE (NA)" = [(r2, 0)] →
  cell (df self) r1 1 = Some (Num L1) → cell (df self) r1 2 = Some (Num U1) →
  cell (df self) r2 1 = Some (Num L2) → cell (df self) r2 2 = Some (Num U2) →
  (∀ s, 3 ≤ s < columns (df self) →
        ∃ v1 v2, cell (df self) r1 s = Some v1 ∧ cell (df self) r2 s = Some v2
                 ∧ comparable v1 ∧ comparable v2) →
  ∃ self', mark_contamination_metrics self = (Ok tt, self').
Proof.
  intros Hr1 Hr2 HL1 HU1 HL2 HU2 Htyped.
  rewrite mark_contamination_metrics_trace. simpl.
  destruct (samples_trace_ok (df self) (range 3 (columns (df self))) unbound)
    as [l_end Hend].
  { intros s l0 Hs%elem_of_range.
    destruct (Htyped s Hs) as (v1 & v2 & Hv1 & Hv2 & C1 & C2).
    pose proof (for_elements_pair _ _ _ _ _ _ _ _ _ _
                  Hr1 Hr2 HL1 HU1 HL2 HU2 Hv1 Hv2 l0) as Hpair.
    destruct (judge_values_comparable v1 L1 U1 C1) as [[b1 k1] E1].
    destruct (judge_values_comparable v2 L2 U2 C2) as [[b2 k2] E2].
    unfold pair_verdict in Hpair. rewrite E1, E2, ?bind_Ok in Hpair.
    unfold column_trace.
    destruct (for_elements (df self) s elements_to_find l0) as [l1|e];
      [|by destruct k1].
    assert (∃ b, sample_to_highlight l1 = Some b) as [b ->].
    { destruct k1; simpl in Hpair; injection Hpair as ->; by eexists. }
    simpl. destruct b; by eexists. }
  eexists. unfold run_trace; simpl. by rewrite Hend.
Qed.

(** ** The field coercion *)

Lemma bind_Loaded {A B} (f : A → load_result B) (a : A) :
  Loaded a ≫= f = f a.
Proof. done. Qed.

Lemma py_float_raise (py : platform) (item : text) (e : exn) :
  py_float py item = Raise e → e = ValueError.
Proof.
  unfold py_float.
  destruct (_ || _); [done|]. destruct (Parse.is_word "nan" _); [done|].
  destruct (Parse.number _) as [[[ip fp] r]|]; [|congruence].
  destruct (Parse.exponent r) as [[k [|a r']]|]; congruence.
Qed.

Lemma py_int_raise (py : platform) (item : text) (e : exn) :
  py_int py item = Raise e → e = ValueError.
Proof.
  unfold py_int.
  destruct (Parse.digitpart _) as [[ds [|a r]]|]; [|congruence..].
  destruct (_ || _); congruence.
Qed.

(** Every text [int] accepts is a [digitpart] after the sign, which is a
    [number] with neither point nor exponent: [float] accepts it too. *)
Lemma py_int_py_float (py : platform) (item : text) (n : Z) :
  py_int py item = Ok n → ∃ x, py_float py item = Ok x.
Proof.
  unfold py_int, py_float.
  destruct (Parse.digitpart _) as [[ds [|a r]]|] eqn:Ed; [|done..].
  intros _. destruct (_ || _); [by eexists|].
  destruct (Parse.is_word "nan" _); [by eexists|].
  unfold Parse.number. rewrite Ed. simpl. by eexists.
Qed.

(** The coercion never raises: it gives the [float] of the item, or the
    item. *)
Lemma convert_cases (py : platform) (item : text) :
  convert py item =
  Ok match py_float py item with
     | Ok x => Float x
     | Raise _ => Text item
     end.
Proof.
  unfold convert. destruct (py_float py item) as [x|e] eqn:Ef; [done|].
  rewrite (py_float_raise _ _ _ Ef) in *. simpl.
  destruct (py_int py item) as [n|e'] eqn:Ei.
  - destruct (py_int_py_float _ _ _ Ei) as [x Hx]. congruence.
  - by rewrite (py_int_raise _ _ _ Ei).
Qed.

Lemma mapM_convert (py : platform) (row : list text) :
  mapM (convert py) row =
  Ok (map (λ item, match py_float py item with
                   | Ok x => Float x
                   | Raise _ => Text item
                   end) row).
Proof.
  induction row as [|item row IH]; simpl; [done|].
  by rewrite convert_cases, bind_Ok, IH, bind_Ok.
Qed.

(** Binding the converted items of a row to cells fails on an unclean
    item and gives what the cells keep otherwise. *)
Lemma mapM_bind_value (py : platform) (row : list text) :
  mapM bind_value
    (map (λ item, match py_float py item with
                  | Ok x => Float x
                  | Raise _ => Text item
                  end) row) =
  if existsb (unclean py) row then Failed IllegalCharacterError
  else Loaded (map (appended py) row).
Proof.
  induction row as [|item row IH]; simpl; [done|].
  unfold unclean at 1, appended at 1.
  destruct (py_float py item) as [x|e]; simpl.
  - rewrite IH. by destruct (existsb (unclean py) row).
  - unfold check_string.
    destruct (existsb illegal_character (take (N.to_nat 32767) item)); simpl;
      [done|].
    rewrite ?bind_Loaded, IH. by destruct (existsb (unclean py) row).
Qed.

Lemma for_rows_outcome (py : platform) (rows : list (list text))
    (worksheet : list (list field)) :
  for_rows py rows worksheet =
  if existsb (existsb (unclean py)) rows then Failed IllegalCharacterError
  else Loaded (worksheet ++ map (map (appended py)) rows).
Proof.
  revert worksheet. induction rows as [|row rows IH]; intros worksheet; simpl.
  - by rewrite app_nil_r.
  - rewrite mapM_convert. simpl.
    unfold append. rewrite mapM_bind_value.
    destruct (existsb (unclean py) row); simpl; [done|].
    rewrite ?bind_Loaded, IH.
    destruct (existsb (existsb (unclean py)) rows); [done|].
    by rewrite <- app_assoc.
Qed.

(** C10: whatever the Unicode tables, the rounding and the digit limit of
    the platform, a text that [int] accepts is accepted by [float]; so the
    coercion with its three branches equals the one with two, no item is
    converted to an [int], and no row that [tsv_to_excel] has handed to
    the worksheet holds one. *)
Theorem int_branch_unreachable (py : platform) :
  (∀ item n, py_int py item = Ok n → ∃ x, py_float py item = Ok x)
  ∧ (∀ item, convert py item = convert_float_or_text py item)
  ∧ (∀ item n, convert py item ≠ Ok (Int n))
  ∧ (∀ read_tsv worksheet row fld n,
       tsv_to_excel py read_tsv = Loaded worksheet →
       row ∈ worksheet → fld ∈ row → fld ≠ Int n).
Proof.
  split_and!.
  - apply py_int_py_float.
  - intros item. rewrite convert_cases. unfold convert_float_or_text.
    destruct (py_float py item) as [x|e] eqn:Ef; [done|].
    by rewrite (py_float_raise _ _ _ Ef).
  - intros item n. rewrite convert_cases.
    by destruct (py_float py item).
  - intros read_tsv worksheet row fld n. unfold tsv_to_excel.
    rewrite for_rows_outcome.
    destruct (existsb _ (tsv_rows read_tsv)); [done|].
    rewrite bind_Loaded. simpl.
    destruct (tsv_error read_tsv); [done|].
    destruct (workbook_save py _); [done|].
    intros [= <-] (items & -> & _)%list_elem_of_fmap
      (item & -> & _)%list_elem_of_fmap.
    unfold appended. by destruct (py_float py item).
Qed.

Lemma int_branch_unreachable_witness :
  convert example_platform (text_of_string "1_000") = Ok (Float (Fin 1000))
  ∧ (∀ n, convert example_platform (text_of_string "1_000") ≠ Ok (Int n)).
Proof.
  split; [reflexivity|].
  intros n.
  apply (proj1 (proj2 (proj2 (int_branch_unreachable example_platform)))).
Defined.

(** C10, the grid: for the item 100 the loader hands the float 100.0 to
    the worksheet, and the number read back from the saved workbook, where
    it is written as 100, is the int 100. *)
Lemma reloaded_whole_number_counterexample :
  tsv_to_excel example_platform (MkTsv [[text_of_string "100"]] None) =
    Loaded [[Float (Fin 100)]]
  ∧ reload_number Fin 100 = XInt 100.
Proof. split; reflexivity. Qed.

(** [float] reads the digits and the spaces of other scripts: two
    fullwidth digits after a no-break space are a number. *)
Example fullwidth_digits :
  convert example_platform [160; 65297; 65298]%N = Ok (Float (Fin 12)).
Proof. reflexivity. Qed.

(** X19: [tsv_to_excel] stops with an [IllegalCharacterError] when some
    item that [float] refuses holds, in what a cell would keep of it, a
    character openpyxl refuses; otherwise it raises what the reader
    raises, if anything; otherwise what the save raises, if anything;
    otherwise it returns, and the worksheet has the rows read, each
    field being the [float] of its item when [float] accepts the item and
    the item cut to 32767 characters otherwise. *)
Theorem tsv_to_excel_outcome (py : platform) (read_tsv : tsv) :
  tsv_to_excel py read_tsv =
  if existsb (existsb (unclean py)) (tsv_rows read_tsv)
  then Failed IllegalCharacterError
  else
    match tsv_error read_tsv with
    | Some e => Failed e
    | None =>
        let worksheet := map (map (appended py)) (tsv_rows read_tsv) in
        match workbook_save py worksheet with
        | Some e => Failed e
        | None => Loaded worksheet
        end
    end.
Proof.
  unfold tsv_to_excel. rewrite for_rows_outcome.
  by destruct (existsb _ (tsv_rows read_tsv)).
Qed.

Lemma digitpart_head (l : list ascii) (x : list ascii * list ascii) :
  Parse.digitpart l = Some x →
  ∃ a l', l = a :: l' ∧ Parse.is_digit a = true.
Proof.
  destruct l as [|a l']; simpl; [done|].
  destruct (Parse.is_digit a) eqn:Ea; [|done]. intros _. by exists a, l'.
Qed.

Lemma number_head (l : list ascii) (x : list ascii * list ascii * list ascii) :
  Parse.number l = Some x →
  ∃ a l', l = a :: l' ∧ (Parse.is_digit a = true ∨ a = "."%char).
Proof.
  unfold Parse.number. destruct (Parse.digitpart l) as [[ip r]|] eqn:Ed.
  - intros _. apply digitpart_head in Ed as (a & l' & -> & Ha).
    exists a, l'. split; [done|by left].
  - destruct l as [|a l']; [done|].
    destruct (Ascii.eqb a ".") eqn:Ea; [|done]. intros _.
    apply Ascii.eqb_eq in Ea as ->. eexists _, _. split; [done|by right].
Qed.

(** X20: an item that, once its Unicode digits and spaces are mapped to
    ASCII and its surrounding spaces and its sign are removed, is none of
    the words inf, infinity and nan and starts with neither a digit nor a
    point is appended to [converted_row] as the text it is; the labels and
    the texts NA and FALSE are such items. *)
Theorem text_is_kept (py : platform) (item : text) :
  let w := (Parse.sign (Parse.strip (to_ascii py item))).2 in
  Parse.is_word "inf" w = false →
  Parse.is_word "infinity" w = false →
  Parse.is_word "nan" w = false →
  (∀ a, head w = Some a → Parse.is_digit a = false ∧ a ≠ "."%char) →
  convert py item = Ok (Text item).
Proof.
  intros w Hinf Hinfinity Hnan Hhead.
  assert (py_float py item = Raise ValueError) as Hf.
  { unfold py_float. fold w. rewrite Hinf, Hinfinity, Hnan. simpl.
    destruct (Parse.number w) as [[[ip fp] r]|] eqn:En; [|done].
    apply number_head in En as (a & l' & Hw & Ha).
    destruct (Hhead a) as [Hd Hp]; [by rewrite Hw|].
    destruct Ha as [Ha| ->]; congruence. }
  assert (py_int py item = Raise ValueError) as Hi.
  { unfold py_int. fold w.
    destruct (Parse.digitpart w) as [[ds r]|] eqn:Ed; [|done].
    apply digitpart_head in Ed as (a & l' & Hw & Ha).
    destruct (Hhead a) as [Hd _]; [by rewrite Hw|]. congruence. }
  unfold convert. by rewrite Hf, Hi.
Qed.

Lemma text_is_kept_witness :
  Forall (λ t, convert example_platform (text_of_string t)
               = Ok (Text (text_of_string t)))
         ("NA" :: "FALSE" :: elements_to_find ++ metrics_to_find).
Proof.
  unfold elements_to_find, metrics_to_find. simpl.
  repeat (apply List.Forall_cons;
          [apply text_is_kept;
           [reflexivity|reflexivity|reflexivity|
            intros a H; vm_compute in H; injection H as <-;
            split; [reflexivity|discriminate]]|]).
  apply List.Forall_nil.
Defined.

(** ** What the scanners leave alone *)

Lemma trace_for_elem_inv {A} (xs : list A) (t : A → trace unit) (p : nat * nat) :
  p ∈ (trace_for xs t).1 → ∃ x, x ∈ xs ∧ p ∈ (t x).1.
Proof.
  induction xs as [|x xs IH]; simpl.
  - by intros ?%not_elem_of_nil.
  - destruct (t x) as [ps [[]|e]] eqn:Et; simpl.
    + intros [Hp|Hp]%elem_of_app.
      * exists x. rewrite Et. split; [left|done].
      * destruct (IH Hp) as (y & Hy & Hpy). exists y. split; [by right|done].
    + intros Hp. exists x. rewrite Et. split; [left|done].
Qed.

(** X1: whether [mark_other_metrics] returns or raises, every cell it
    has highlighted lies in a sample column (the fourth or later) of a row
    that holds a configured label. *)
Theorem mark_other_metrics_only_sample_cells (self self' : Excel)
    (r : result unit) (p : nat * nat) :
  mark_other_metrics self = (r, self') →
  p ∈ highlighted self' →
  p ∈ highlighted self ∨
  ∃ s row c metric,
    p = (s + 1, row + 1) ∧ 3 ≤ s < columns (df self)
    ∧ metric ∈ metrics_to_find ∧ cell (df self) row c = Some (Str metric).
Proof.
  rewrite mark_other_metrics_trace. intros (_ & _ & _ & _ & Hh)%run_trace_inv.
  intros [Hp|Hp]%Hh; [|by left]. right. unfold other_trace in Hp.
  apply trace_for_elem_inv in Hp as (s & Hs%elem_of_range & Hp).
  apply trace_for_elem_inv in Hp as (metric & Hm & Hp).
  apply trace_for_elem_inv in Hp as ([row c] & Hi%index_of_spec & Hp).
  exists s, row, c, metric.
  destruct (other_flag (df self) s (row, c)) as [[]|e]; simpl in Hp;
    [|by apply not_elem_of_nil in Hp..].
  apply list_elem_of_singleton in Hp.
  split; [done|]. split; [done|]. by split.
Qed.

Lemma mark_other_metrics_only_sample_cells_witness :
  let self := fresh (metric_table (Num (Fin 100)) (Num (Fin 500)) (Num (Fin 50))) in
  (4, 1) ∈ highlighted self ∨
  ∃ s row c metric,
    (4, 1) = (s + 1, row + 1) ∧ 3 ≤ s < columns (df self)
    ∧ metric ∈ metrics_to_find ∧ cell (df self) row c = Some (Str metric).
Proof.
  intros self.
  apply (mark_other_metrics_only_sample_cells
           self (after mark_other_metrics self) (outcome mark_other_metrics self));
    reflexivity.
Defined.

Lemma mark_false_loop_keeps (indices : list (nat * nat)) (self self' : Excel)
    (r : result unit) :
  for_each indices mark_false_cell self = (r, self') →
  ws self' = ws self ∧ df self' = df self
  ∧ highlighted self ⊆ highlighted self'
  ∧ (r = Ok tt → file_exists self' = file_exists self).
Proof.
  revert self. induction indices as [|idx indices IH]; intros self; simpl.
  - by intros [= <- <-].
  - unfold mbind, M_bind. destruct (decide (idx.1 + 1 = 17)) as [Hrow|Hrow].
    + rewrite (mark_false_cell_status_row _ _ Hrow). unfold run_trace; simpl.
      intros (Hws & Hdf & Hsub & Hfile)%IH. simpl in *. split_and!; try done.
      intros p Hp. apply Hsub. by apply elem_of_union_r.
    + rewrite (mark_false_cell_elsewhere _ _ Hrow). by intros [= <- <-].
Qed.

(** X2: the three marking passes read the table and never change it:
    however a pass ends, the worksheet values and the frame are the ones it
    started with and no highlight is taken away; a pass that returns
    leaves the file in place. *)
Theorem marking_passes_keep_the_table (self self' : Excel) (r : result unit) :
  mark_false self = (r, self')
  ∨ mark_contamination_metrics self = (r, self')
  ∨ mark_other_metrics self = (r, self') →
  ws self' = ws self ∧ df self' = df self
  ∧ highlighted self ⊆ highlighted self'
  ∧ (r = Ok tt → file_exists self' = file_exists self).
Proof.
  intros [H|[H|H]].
  - rewrite mark_false_unfold in H. by apply mark_false_loop_keeps in H.
  - rewrite mark_contamination_metrics_trace in H.
    apply run_trace_inv in H as (_ & Hws & Hdf & Hfile & Hh).
    split_and!; try done. intros p Hp. apply Hh. by right.
  - rewrite mark_other_metrics_trace in H.
    apply run_trace_inv in H as (_ & Hws & Hdf & Hfile & Hh).
    split_and!; try done. intros p Hp. apply Hh. by right.
Qed.

Lemma marking_passes_keep_the_table_witness :
  let self := fresh (contamination_table (Num (Fin 0.03)) (Num (Fin 0.05))) in
  let self' := after mark_contamination_metrics self in
  ws self' = ws self ∧ df self' = df self
  ∧ highlighted self ⊆ highlighted self'
  ∧ (outcome mark_contamination_metrics self = Ok tt →
     file_exists self' = file_exists self).
Proof.
  intros self self'.
  apply (marking_passes_keep_the_table self self'
           (outcome mark_contamination_metrics self)).
  right. left. reflexivity.
Defined.

(** ** Empty sample cells *)

Lemma other_flag_nan (f : frame) (s : nat) (idx : nat * nat) :
  loc f idx.1 s = Ok (Num NaN) → other_flag f s idx ≠ Ok true.
Proof.
  intros Hv. unfold other_flag.
  destruct (loc f idx.1 (idx.2 + 1)) as [lsl|e]; [|done].
  destruct (loc f idx.1 (idx.2 + 2)) as [usl|e]; [|done].
  rewrite Hv, ?bind_Ok.
  destruct (Py.op_eq lsl NA && Py.op_eq usl NA); [done|].
  destruct (Py.op_eq lsl NA && Py.op_ne (Num NaN) NA).
  { by destruct usl as [[]| |]. }
  destruct (Py.op_eq usl NA && Py.op_ne (Num NaN) NA).
  { by destruct lsl as [[]| |]. }
  destruct (Py.op_ne (Num NaN) NA); [|done].
  destruct lsl as [[]| |]; simpl; try done; by destruct usl as [[]| |].
Qed.

(** X4: a sample cell that holds [nan] (what the frame stores for an
    empty cell of a numeric column) is never highlighted by a completed
    [mark_other_metrics], whatever the limits are. *)
Theorem mark_other_metrics_nan (self self' : Excel) (r s : nat) :
  mark_other_metrics self = (Ok tt, self') →
  cell (df self) r s = Some (Num NaN) →
  (s + 1, r + 1) ∈ highlighted self' → (s + 1, r + 1) ∈ highlighted self.
Proof.
  intros Hrun Hv [?|(s' & m & [r' c'] & _ & _ & _ & Hflag & Heq)]%
    (mark_other_metrics_highlighted _ _ _ Hrun); [done|].
  simpl in Heq. injection Heq as Hs' Hr'.
  assert (s' = s) as -> by lia. assert (r' = r) as -> by lia.
  by apply other_flag_nan in Hflag; [|apply loc_cell].
Qed.

Lemma other_flag_none (f : frame) (r c s : nat) (lsl usl : value) :
  cell f r s = Some NoneV →
  cell f r (c + 1) = Some lsl → cell f r (c + 2) = Some usl →
  ¬ (lsl = NA ∧ usl = NA) →
  other_flag f s (r, c) = Raise TypeError.
Proof.
  intros Hv Hl Hu Hlim. rewrite (other_flag_cells _ _ _ _ _ _ _ Hl Hu Hv).
  change (Py.op_ne NoneV NA) with true. rewrite !andb_true_r.
  destruct (Py.op_eq lsl NA) eqn:El, (Py.op_eq usl NA) eqn:Eu; simpl; try done.
  apply py_eq_Str in El, Eu. by destruct Hlim.
Qed.

(** X5: a sample cell that holds [None] in a configured metric row whose
    limits are not both NA makes [mark_other_metrics] raise: [None]
    cannot be compared with the limit. *)
Theorem empty_sample_raises (self : Excel) (metric : string) (r c s : nat)
    (lsl usl : value) :
  metric ∈ metrics_to_find →
  cell (df self) r c = Some (Str metric) →
  cell (df self) r (c + 1) = Some lsl → cell (df self) r (c + 2) = Some usl →
  ¬ (lsl = NA ∧ usl = NA) →
  3 ≤ s → cell (df self) r s = Some NoneV →
  other_flag (df self) s (r, c) = Raise TypeError
  ∧ ∃ e self', mark_other_metrics self = (Raise e, self').
Proof.
  intros Hm Hc Hl Hu Hlim Hs Hv.
  pose proof (other_flag_none _ _ _ _ _ _ Hv Hl Hu Hlim) as Hflag.
  split; [done|]. eapply mark_other_metrics_raises; [done..| |done].
  split; [done|]. by eapply cell_lt_columns.
Qed.

Lemma mark_other_metrics_nan_witness :
  let self := fresh (metric_table (Num (Fin 100)) (Num (Fin 500)) (Num NaN)) in
  cell (df self) 0 3 = Some (Num NaN)
  ∧ ((4, 1) ∈ highlighted (after mark_other_metrics self) →
     (4, 1) ∈ highlighted self).
Proof.
  intros self. split; [reflexivity|].
  apply (mark_other_metrics_nan self (after mark_other_metrics self) 0 3);
    reflexivity.
Defined.

Lemma empty_sample_raises_witness :
  let self := fresh (metric_table (Num (Fin 100)) (Num (Fin 500)) NoneV) in
  ∃ e self', mark_other_metrics self = (Raise e, self').
Proof.
  intros self.
  refine (proj2 (empty_sample_raises self "MEDIAN_INSERT_SIZE (bp)" 0 0 3
                   (Num (Fin 100)) (Num (Fin 500)) _ _ _ _ _ _ _)).
  - left.
  - reflexivity.
  - reflexivity.
  - reflexivity.
  - intros [H _]. discriminate H.
  - lia.
  - reflexivity.
Defined.

Lemma mark_other_metrics_NA_witness :
  let self := fresh (metric_table (Num (Fin 100)) (Num (Fin 500)) NA) in
  cell (df self) 0 3 = Some NA
  ∧ ((4, 1) ∈ highlighted (after mark_other_metrics self) →
     (4, 1) ∈ highlighted self).
Proof.
  intros self. split; [reflexivity|].
  apply (mark_other_metrics_NA self (after mark_other_metrics self) 0 3);
    reflexivity.
Defined.

(** ** The verdict of the combined pass *)

Lemma judge_values_cases (L U : Py.num) (v : value) (b k : bool) :
  judge_values v (Num L) (Num U) = Ok (b, k) →
  (v = NA ∧ b = false ∧ k = false)
  ∨ (v ≠ NA ∧ b = violates L U v ∧ k = negb b).
Proof.
  unfold judge_values. destruct (Py.op_eq v NA) eqn:Ev.
  - apply py_eq_Str in Ev as ->. intros [= <- <-]. by left.
  - assert (v ≠ NA) as Hne.
    { intros ->. vm_compute in Ev. discriminate Ev. }
    destruct v as [x|t|]; simpl; try done. rewrite ?bind_Ok. unfold outside.
    destruct (num_ltb x L); simpl; rewrite ?bind_Ok.
    + intros [= <- <-]. by right.
    + destruct (num_ltb U x); intros [= <- <-]; by right.
Qed.

Lemma pair_verdict_exact (L1 U1 L2 U2 : Py.num) (v1 v2 : value) (b : bool) :
  pair_verdict v1 (Num L1) (Num U1) v2 (Num L2) (Num U2) = Ok b →
  b = true ↔
  violates L2 U2 v2 = true ∧ (v1 = NA ∨ violates L1 U1 v1 = true).
Proof.
  unfold pair_verdict.
  destruct (judge_values v1 (Num L1) (Num U1)) as [[b1 k1]|e] eqn:E1; [|done].
  rewrite bind_Ok. simpl.
  apply judge_values_cases in E1 as [(-> & -> & ->)|(Hne & -> & ->)]; simpl.
  - destruct (judge_values v2 (Num L2) (Num U2)) as [[b2 k2]|e] eqn:E2; [|done].
    rewrite bind_Ok. simpl. intros [= <-].
    apply judge_values_cases in E2 as [(-> & -> & ->)|(_ & -> & ->)]; simpl in *; intuition congruence.
  - destruct (violates L1 U1 v1) eqn:Ev1; simpl.
    + destruct (judge_values v2 (Num L2) (Num U2)) as [[b2 k2]|e] eqn:E2; [|done].
      rewrite bind_Ok. simpl. intros [= <-].
      apply judge_values_cases in E2 as [(-> & -> & ->)|(_ & -> & ->)]; simpl in *; intuition congruence.
    + intros [= <-]. simpl in *; intuition congruence.
Qed.

(** The cells of a sample column are highlighted by a completed pass
    exactly when the verdict on that column is positive. *)
Lemma contamination_column_decides (self self' : Excel) (s : nat)
    (verdict : result bool) (p : nat * nat) :
  (∀ l, sample_to_highlight <$> for_elements (df self) s elements_to_find l =
        Some <$> verdict) →
  mark_contamination_metrics self = (Ok tt, self') →
  3 ≤ s < columns (df self) →
  p ∈ contamination_cells (df self) s →
  p ∈ highlighted self' ↔ p ∈ highlighted self ∨ verdict = Ok true.
Proof.
  intros Hverdict Hrun Hs Hp.
  rewrite mark_contamination_metrics_trace in Hrun.
  apply run_trace_inv in Hrun as (Hok & _ & _ & _ & Hh). simpl in Hok, Hh.
  destruct (samples_trace (df self) (range 3 (columns (df self))) unbound).2
    as [l_end|e] eqn:Eend; [clear Hok|done].
  assert (∀ l0 l1, (column_trace (df self) s l0).2 = Ok l1 →
            (p ∈ (column_trace (df self) s l0).1 ↔ verdict = Ok true)) as Hcol.
  { intros l0 l1. specialize (Hverdict l0). unfold column_trace.
    destruct (for_elements (df self) s elements_to_find l0) as [l'|e];
      simpl in *; [|done].
    destruct verdict as [b|e]; simpl in Hverdict; [|done].
    injection Hverdict as ->. simpl. intros _.
    destruct b; simpl; [done|]. split; [by intros ?%not_elem_of_nil|done]. }
  rewrite Hh. split.
  - intros [Hin|?]; [|by left]. right.
    apply (samples_trace_elem_inv _ _ _ _ _ Eend) in Hin
      as (s' & l0 & l1 & Hs' & Hl0 & Hp').
    assert (s' = s) as ->.
    { apply column_trace_cells, contamination_cells_col in Hp'.
      apply contamination_cells_col in Hp. lia. }
    by apply (Hcol l0 l1).
  - intros [?|Hv]; [by right|]. left.
    apply (samples_trace_elem_intro _ _ _ _ s _ Eend); [by apply elem_of_range|].
    intros l0 l1 Hl0. by apply (Hcol l0 l1).
Qed.

(** X8: with each contamination label once, in the first column, and
    numeric limits in its row, a completed [mark_contamination_metrics]
    highlights the two cells of a sample together, and does so exactly
    when the p-value is numeric and outside its limits while the score is
    either NA or numeric and outside its own limits. *)
Theorem contamination_pair_exact (self self' : Excel) (r1 r2 s : nat)
    (L1 U1 L2 U2 : Py.num) (v1 v2 : value) :
  mark_contamination_metrics self = (Ok tt, self') →
  index_of (df self) "CONTAMINATION_SCORE (NA)" = [(r1, 0)] →
  index_of (df self) "CONTAMINATION_P_VALUE (NA)" = [(r2, 0)] →
  cell (df self) r1 1 = Some (Num L1) → cell (df self) r1 2 = Some (Num U1) →
  cell (df self) r2 1 = Some (Num L2) → cell (df self) r2 2 = Some (Num U2) →
  3 ≤ s →
  cell (df self) r1 s = Some v1 → cell (df self) r2 s = Some v2 →
  (s + 1, r1 + 1) ∉ highlighted self → (s + 1, r2 + 1) ∉ highlighted self →
  ((s + 1, r1 + 1) ∈ highlighted self' ↔
     violates L2 U2 v2 = true ∧ (v1 = NA ∨ violates L1 U1 v1 = true))
  ∧ ((s + 1, r2 + 1) ∈ highlighted self' ↔
     violates L2 U2 v2 = true ∧ (v1 = NA ∨ violates L1 U1 v1 = true)).
Proof.
  intros Hrun Hr1 Hr2 HL1 HU1 HL2 HU2 Hs Hv1 Hv2 Hnew1 Hnew2.
  assert (3 ≤ s < columns (df self)) as Hs'.
  { split; [done|]. by eapply cell_lt_columns. }
  pose proof (for_elements_pair _ _ _ _ _ _ _ _ _ _
                Hr1 Hr2 HL1 HU1 HL2 HU2 Hv1 Hv2) as Hverdict.
  pose proof (contamination_cells_pair _ _ _ Hr1 Hr2 s) as Hcells.
  assert (∃ b, pair_verdict v1 (Num L1) (Num U1) v2 (Num L2) (Num U2) = Ok b)
    as [b Hb].
  { rewrite mark_contamination_metrics_trace in Hrun.
    apply run_trace_inv in Hrun as (Hok & _). simpl in Hok.
    destruct (pair_verdict _ _ _ _ _ _) as [b|e] eqn:E; [by exists b|].
    destruct (samples_trace_raise (df self) (range 3 (columns (df self)))
                unbound s) as [e' He'].
    - by apply elem_of_range.
    - intros l0. exists e. specialize (Hverdict l0). unfold column_trace.
      destruct (for_elements (df self) s elements_to_find l0); simpl in *;
        congruence.
    - by rewrite He' in Hok. }
  pose proof (pair_verdict_exact _ _ _ _ _ _ _ Hb) as Hexact.
  assert (∀ p, p ∈ contamination_cells (df self) s → p ∉ highlighted self →
            (p ∈ highlighted self' ↔
             violates L2 U2 v2 = true ∧ (v1 = NA ∨ violates L1 U1 v1 = true)))
    as Hall.
  { intros p Hp Hnew.
    rewrite (contamination_column_decides _ _ _ _ _ Hverdict Hrun Hs' Hp).
    rewrite <- Hexact, Hb. split.
    - intros [?|[= ->]]; done.
    - intros ->. by right. }
  rewrite Hcells in Hall. split; apply Hall; try done; [left|right; left].
Qed.

Lemma contamination_pair_exact_witness :
  let self := fresh (contamination_table NA (Num (Fin 0.05))) in
  (4, 1) ∈ highlighted (after mark_contamination_metrics self)
  ∧ (4, 2) ∈ highlighted (after mark_contamination_metrics self).
Proof.
  intros self.
  destruct (contamination_pair_exact
              self (after mark_contamination_metrics self) 0 1 3
              (Fin 0) (Fin 0.02) (Fin 0) (Fin 0.02) NA (Num (Fin 0.05)))
    as [H1 H2]; try reflexivity; try lia.
  - apply (bool_decide_unpack _). vm_compute. exact I.
  - apply (bool_decide_unpack _). vm_compute. exact I.
  - split; [apply H1|apply H2]; (split; [reflexivity|by left]).
Defined.

Lemma for_elements_lone (f : frame) (r s : nat) (v lsl usl : value) (l : locals) :
  index_of f "CONTAMINATION_SCORE (NA)" = [(r, 0)] →
  index_of f "CONTAMINATION_P_VALUE (NA)" = [] →
  cell f r 1 = Some lsl → cell f r 2 = Some usl → cell f r s = Some v →
  sample_to_highlight <$> for_elements f s elements_to_find l =
  Some <$> pair_verdict v lsl usl v lsl usl.
Proof.
  intros Hr Hnone Hl Hu Hv. unfold elements_to_find, pair_verdict; simpl.
  rewrite Hr, Hnone; simpl.
  rewrite (read_metric_row _ _ _ _ _ _ _ Hv Hl Hu).
  rewrite ?bind_Ok, judge_values_spec.
  destruct (judge_values v lsl usl) as [[b1 [|]]|e] eqn:E; simpl; [done| |done].
  rewrite ?bind_Ok; simpl. rewrite judge_values_spec, E. done.
Qed.

(** X9: when the CONTAMINATION_P_VALUE label is missing and the
    CONTAMINATION_SCORE label occurs once, in the first column, with
    numeric limits, the score is judged in place of the missing
    measurement: the pass returns when every sample cell of the score row
    is a number or NA, and a pass that returns has highlighted the score
    cell of a sample exactly when the score is numeric and outside its
    limits. *)
Theorem lone_score_rule (self : Excel) (r : nat) (L U : Py.num) :
  index_of (df self) "CONTAMINATION_SCORE (NA)" = [(r, 0)] →
  index_of (df self) "CONTAMINATION_P_VALUE (NA)" = [] →
  cell (df self) r 1 = Some (Num L) → cell (df self) r 2 = Some (Num U) →
  ((∀ s, 3 ≤ s < columns (df self) →
         ∃ v, cell (df self) r s = Some v ∧ comparable v) →
   ∃ self', mark_contamination_metrics self = (Ok tt, self'))
  ∧ (∀ self' s v,
       mark_contamination_metrics self = (Ok tt, self') →
       3 ≤ s → cell (df self) r s = Some v →
       (s + 1, r + 1) ∉ highlighted self →
       ((s + 1, r + 1) ∈ highlighted self' ↔ violates L U v = true)).
Proof.
  intros Hr Hnone HL HU. split.
  { intros Htyped. rewrite mark_contamination_metrics_trace. simpl.
    destruct (samples_trace_ok (df self) (range 3 (columns (df self))) unbound)
      as [l_end Hend].
    { intros s l0 Hs%elem_of_range.
      destruct (Htyped s Hs) as (v & Hv & C).
      pose proof (for_elements_lone _ _ _ _ _ _ l0 Hr Hnone HL HU Hv) as Hlone.
      destruct (judge_values_comparable v L U C) as [[b k] E].
      unfold pair_verdict in Hlone. rewrite E, ?bind_Ok in Hlone.
      unfold column_trace.
      destruct (for_elements (df self) s elements_to_find l0) as [l1|e];
        [|by destruct k].
      assert (∃ b', sample_to_highlight l1 = Some b') as [b' ->].
      { destruct k; simpl in Hlone; injection Hlone as ->; by eexists. }
      simpl. destruct b'; by eexists. }
    eexists. unfold run_trace; simpl. by rewrite Hend. }
  intros self' s v Hrun Hs Hv Hnew.
  assert (3 ≤ s < columns (df self)) as Hs'.
  { split; [done|]. by eapply cell_lt_columns. }
  assert ((s + 1, r + 1) ∈ contamination_cells (df self) s) as Hp.
  { unfold contamination_cells, elements_to_find; simpl. rewrite Hr, Hnone.
    simpl. left. }
  pose proof (λ l, for_elements_lone _ _ _ _ _ _ l Hr Hnone HL HU Hv) as Hverdict.
  rewrite (contamination_column_decides _ _ _ _ _ Hverdict Hrun Hs' Hp).
  destruct (pair_verdict v (Num L) (Num U) v (Num L) (Num U)) as [b|e] eqn:Eb.
  - pose proof (pair_verdict_exact _ _ _ _ _ _ _ Eb) as Hexact. split.
    + intros [?|[= ->]]; [done|]. by apply Hexact.
    + intros Hviol. right. f_equal. apply Hexact. split; [done|by right].
  - exfalso. rewrite mark_contamination_metrics_trace in Hrun.
    apply run_trace_inv in Hrun as (Hok & _). simpl in Hok.
    destruct (samples_trace_raise (df self) (range 3 (columns (df self)))
                unbound s) as [e' He'].
    + by apply elem_of_range.
    + intros l0. exists e. specialize (Hverdict l0). unfold column_trace.
      destruct (for_elements (df self) s elements_to_find l0); simpl in *;
        congruence.
    + by rewrite He' in Hok.
Qed.

Lemma lone_score_rule_witness :
  let self := fresh (score_only_table (Num (Fin 0.05))) in
  (∃ self', mark_contamination_metrics self = (Ok tt, self'))
  ∧ (4, 1) ∈ highlighted (after mark_contamination_metrics self).
Proof.
  intros self.
  destruct (lone_score_rule self 0 (Fin 0) (Fin 0.02)) as [Hreturns Hrule];
    try reflexivity.
  split.
  - apply Hreturns. intros s Hs. change (columns (df self)) with 4 in Hs.
    assert (s = 3) as -> by lia.
    exists (Num (Fin 0.05)). split; [reflexivity|]. left. by eexists.
  - apply (Hrule (after mark_contamination_metrics self) 3 (Num (Fin 0.05)));
      try reflexivity; try lia.
    apply (bool_decide_unpack _). vm_compute. exact I.
Defined.

(** X10: with at least one sample column, [mark_contamination_metrics]
    ends in an [UnboundLocalError], before highlighting anything, when no
    cell holds the CONTAMINATION_SCORE label ([value_to_compare] is read
    unassigned), and when the label's only occurrence is outside the
    first column and the first sample value of its row is not NA ([LSL]
    is read unassigned). *)
Theorem unbound_local_cases (self : Excel) :
  3 < columns (df self) →
  (index_of (df self) "CONTAMINATION_SCORE (NA)" = [] →
   mark_contamination_metrics self = (Raise UnboundLocalError, self))
  ∧ (∀ r c v,
       index_of (df self) "CONTAMINATION_SCORE (NA)" = [(r, c)] → c ≠ 0 →
       cell (df self) r 3 = Some v → v ≠ NA →
       mark_contamination_metrics self = (Raise UnboundLocalError, self)).
Proof.
  intros Hcols. split.
  - intros Hnone. by apply mark_contamination_metrics_no_label.
  - intros r c v Hr Hc Hv Hne. rewrite mark_contamination_metrics_trace.
    unfold range. destruct (columns (df self) - 3) as [|n] eqn:E; [lia|].
    simpl. unfold column_trace, elements_to_find; simpl. rewrite Hr; simpl.
    unfold read_metric; simpl. rewrite (loc_cell _ _ _ _ Hv), ?bind_Ok.
    rewrite decide_False by done. rewrite ?bind_Ok.
    unfold judge; simpl. rewrite ?bind_Ok.
    destruct (Py.op_eq v NA) eqn:Ev; [by apply py_eq_Str in Ev|].
    simpl. unfold run_trace; simpl. by rewrite highlight_all_nil.
Qed.

Lemma unbound_local_cases_witness :
  outcome mark_contamination_metrics
    (fresh (metric_table (Num (Fin 100)) (Num (Fin 500)) (Num (Fin 300))))
  = Raise UnboundLocalError
  ∧ outcome mark_contamination_metrics
      (fresh (offset_label_table (Num (Fin 0.05))))
    = Raise UnboundLocalError.
Proof.
  split.
  - unfold outcome.
    rewrite (proj1 (unbound_local_cases
                      (fresh (metric_table (Num (Fin 100)) (Num (Fin 500))
                                (Num (Fin 300))))
                      ltac:(vm_compute; lia)));
      reflexivity.
  - unfold outcome.
    rewrite (proj2 (unbound_local_cases
                      (fresh (offset_label_table (Num (Fin 0.05))))
                      ltac:(vm_compute; lia))
               0 1 (Num (Fin 0.05))); (reflexivity || discriminate).
Defined.

(** X11: on a table without sample columns (at most three columns) both
    metric passes return at once and change nothing, whether or not their
    labels occur. *)
Theorem no_sample_columns (self : Excel) :
  columns (df self) ≤ 3 →
  mark_contamination_metrics self = (Ok tt, self)
  ∧ mark_other_metrics self = (Ok tt, self).
Proof.
  intros Hcols. split.
  - rewrite mark_contamination_metrics_trace. unfold range.
    replace (columns (df self) - 3) with 0 by lia. simpl.
    unfold run_trace; simpl. by rewrite highlight_all_nil.
  - rewrite mark_other_metrics_trace. unfold other_trace, range.
    replace (columns (df self) - 3) with 0 by lia. simpl.
    unfold run_trace; simpl. by rewrite highlight_all_nil.
Qed.

Lemma no_sample_columns_witness :
  let self := fresh [ [ Str "MEDIAN_INSERT_SIZE (bp)"; Num (Fin 100); Num (Fin 500) ] ] in
  mark_contamination_metrics self = (Ok tt, self)
  ∧ mark_other_metrics self = (Ok tt, self).
Proof.
  intros self. apply (no_sample_columns self). vm_compute. lia.
Defined.

Lemma mark_other_metrics_no_label_witness :
  let self := fresh (contamination_table (Num (Fin 0.01)) (Num (Fin 0.05))) in
  mark_other_metrics self = (Ok tt, self).
Proof.
  intros self. apply (mark_other_metrics_no_label self).
  intros metric Hm.
  repeat (apply elem_of_cons in Hm as [->|Hm]; [reflexivity|]).
  by apply not_elem_of_nil in Hm.
Defined.

Lemma mark_other_metrics_completes_witness :
  let self := fresh (metric_table (Num (Fin 100)) NA (Num (Fin 50))) in
  ∃ self', mark_other_metrics self = (Ok tt, self').
Proof.
  intros self. apply (mark_other_metrics_completes self).
  intros metric r c s Hm Hc [Hs3 Hs].
  apply index_of_spec in Hc.
  repeat (apply elem_of_cons in Hm as [->|Hm];
          [first [ change (index_of (df self) _) with [(0, 0)] in Hc
                 | change (index_of (df self) _) with (@nil (nat * nat)) in Hc;
                   by apply not_elem_of_nil in Hc ]|]);
    [|by apply not_elem_of_nil in Hm].
  apply list_elem_of_singleton in Hc. injection Hc as -> ->.
  change (columns (df self)) with 4 in Hs. assert (s = 3) as -> by lia.
  exists (Num (Fin 100)), NA, (Num (Fin 50)).
  split_and!; try reflexivity; (by right) || (left; by eexists).
Defined.

Lemma mark_contamination_metrics_completes_witness :
  let self := fresh (contamination_table NA (Num (Fin 0.01))) in
  ∃ self', mark_contamination_metrics self = (Ok tt, self').
Proof.
  intros self.
  apply (mark_contamination_metrics_completes self 0 1
           (Fin 0) (Fin 0.02) (Fin 0) (Fin 0.02)); try reflexivity.
  intros s [Hs3 Hs]. change (columns (df self)) with 4 in Hs.
  assert (s = 3) as -> by lia.
  exists NA, (Num (Fin 0.01)).
  split_and!; try reflexivity; (by right) || (left; by eexists).
Defined.

(** ** What [mark_false] highlights *)

Lemma mark_false_cases (self self' : Excel) (r : result unit) :
  mark_false self = (r, self') →
  (r = Ok tt
   ∧ (∀ idx, idx ∈ index_of (df self) "FALSE" → idx.1 + 1 = 17)
   ∧ self' = highlight_all
               (map (λ idx, (idx.2 + 1, idx.1 + 1)) (index_of (df self) "FALSE"))
               self)
  ∨ (r = Raise TypeError
     ∧ (∃ idx, idx ∈ index_of (df self) "FALSE" ∧ idx.1 + 1 ≠ 17)
     ∧ file_exists self' = false).
Proof.
  rewrite mark_false_unfold. intros Hrun.
  destruct (decide (Forall (λ idx : nat * nat, idx.1 + 1 = 17)
                      (index_of (df self) "FALSE"))) as [Hall|Hnot].
  - left. rewrite Forall_forall in Hall.
    rewrite mark_false_loop_ok in Hrun by done. by injection Hrun as <- <-.
  - right. apply not_Forall_Exists in Hnot; [|apply _].
    apply Exists_exists in Hnot.
    destruct (mark_false_loop_raises _ self Hnot) as (self'' & Hrun' & Hfile).
    rewrite Hrun' in Hrun. by injection Hrun as <- <-.
Qed.

(** X13: when [mark_false] returns, the text FALSE occurs in row 17 only,
    and the cells newly highlighted are exactly the cells of row 17 that
    hold it. *)
Theorem mark_false_highlights_exactly (self self' : Excel) :
  mark_false self = (Ok tt, self') →
  (∀ r c, cell (df self) r c = Some (Str "FALSE") → r + 1 = 17)
  ∧ (∀ p, p ∈ highlighted self' ↔
          p ∈ highlighted self
          ∨ ∃ c, cell (df self) 16 c = Some (Str "FALSE") ∧ p = (c + 1, 17)).
Proof.
  intros [(_ & Hall & ->)|(? & _)]%mark_false_cases; [|done]. split.
  - intros r c Hc%index_of_spec. by apply (Hall (r, c)).
  - intros p. simpl. rewrite elem_of_union, elem_of_list_to_set, list_elem_of_In.
    rewrite in_map_iff. split.
    + intros [([r c] & <- & Hin%list_elem_of_In)|?]; [|by left]. right.
      pose proof (Hall _ Hin) as Hr. simpl in Hr. assert (r = 16) as -> by lia.
      exists c. split; [by apply index_of_spec|done].
    + intros [?|(c & Hc%index_of_spec & ->)]; [by right|]. left.
      exists (16, c). split; [done|]. by apply list_elem_of_In.
Qed.

Lemma mark_false_highlights_exactly_witness :
  (5, 17) ∈ highlighted (after mark_false (fresh status_table))
  ∧ ((4, 17) ∈ highlighted (after mark_false (fresh status_table)) →
     (4, 17) ∈ highlighted (fresh status_table)
     ∨ ∃ c, cell (df (fresh status_table)) 16 c = Some (Str "FALSE")
            ∧ (4, 17) = (c + 1, 17)).
Proof.
  destruct (mark_false_highlights_exactly
              (fresh status_table) (after mark_false (fresh status_table)))
    as [_ Hexact]; [reflexivity|].
  split.
  - apply Hexact. right. exists 4. split; reflexivity.
  - apply Hexact.
Defined.

(** ** The shape of the table after [move_rows] *)

Lemma columns_rect (f : list (list value)) (n : nat) :
  (∀ cells, cells ∈ f → length cells = n) → f ≠ [] → columns f = n.
Proof.
  induction f as [|cells f IH]; intros Hlen Hne; [done|]. simpl.
  rewrite (Hlen cells) by left. destruct f as [|cells' f]; [simpl; lia|].
  rewrite IH; [lia| |done]. intros c Hc. apply Hlen. by right.
Qed.

Lemma move_range_row_length (s : sheet) (rng : CellRange) (k : nat)
    (cells : list value) :
  cells ∈ move_range s rng k →
  length cells = Nat.max (max_column s) (max_col rng + k).
Proof.
  unfold move_range. rewrite list_elem_of_In, in_map_iff.
  intros (row & <- & _). by rewrite length_map, length_seq.
Qed.

Lemma columns_move_range (s : sheet) (rng : CellRange) (k : nat) :
  columns (move_range s rng k) = Nat.max (max_column s) (max_col rng + k).
Proof.
  apply columns_rect; [apply move_range_row_length|].
  intros H. apply (f_equal length) in H. rewrite length_move_range in H.
  unfold sheet_max_row in H. simpl in H. lia.
Qed.

Lemma DataFrame_row_length (s : sheet) (cells : list value) :
  cells ∈ DataFrame s → length cells = columns s.
Proof.
  unfold DataFrame. rewrite list_elem_of_In, in_map_iff.
  intros (row & <- & _). by rewrite length_map, length_seq.
Qed.

Lemma columns_DataFrame (s : sheet) : columns (DataFrame s) = columns s.
Proof.
  destruct s as [|cells s]; [done|].
  apply columns_rect; [apply DataFrame_row_length|done].
Qed.

Lemma move_rows_inv (self self' : Excel) :
  move_rows self = (Ok tt, self') →
  4 ≤ max_column (ws self)
  ∧ self' = MkExcel (move_range (ws self) (status_range (ws self)) 2)
              (DataFrame (move_range (ws self) (status_range (ws self)) 2))
              (highlighted self) (file_exists self).
Proof.
  intros H. destruct (decide (max_column (ws self) < 4)) as [Hlt|Hge].
  - by rewrite move_rows_raises in H.
  - rewrite move_rows_ok in H by lia. injection H as <-. split; [lia|done].
Qed.

(** X15: when [move_rows] returns, the worksheet and the frame are
    rectangular tables of the same shape: as many columns as the worksheet
    had, and as many rows as it had or 19, whichever is more. *)
Theorem move_rows_shape (self self' : Excel) :
  move_rows self = (Ok tt, self') →
  length (ws self') = Nat.max (length (ws self)) 19
  ∧ length (df self') = length (ws self')
  ∧ (∀ cells, cells ∈ ws self' → length cells = max_column (ws self))
  ∧ (∀ cells, cells ∈ df self' → length cells = max_column (ws self)).
Proof.
  intros [Hcols ->]%move_rows_inv. simpl.
  rewrite length_DataFrame, length_move_range.
  unfold sheet_max_row, status_range; simpl. split_and!; [lia|done| |].
  - intros cells Hc%move_range_row_length. simpl in Hc. lia.
  - intros cells Hc%DataFrame_row_length.
    rewrite columns_move_range in Hc. simpl in Hc. lia.
Qed.

Lemma move_rows_shape_witness :
  length (ws (after move_rows (init short_sheet))) = Nat.max (length short_sheet) 19
  ∧ length (df (after move_rows (init short_sheet)))
    = length (ws (after move_rows (init short_sheet))).
Proof.
  destruct (move_rows_shape (init short_sheet) (after move_rows (init short_sheet)))
    as (H1 & H2 & _); [reflexivity|]. by split.
Defined.

Lemma DataFrame_cell (s : list (list value)) (r c : nat) :
  cell (DataFrame s) r c =
  if decide (r < length s ∧ c < columns s) then
    Some (match cell_value s (S r) (S c) with
          | NoneV => if numeric_column (column_of s c) then Num NaN else NoneV
          | v => v
          end)
  else None.
Proof.
  unfold cell, DataFrame, cell_value, sheet, frame.
  change (map ?g s) with (g <$> s). rewrite list_lookup_fmap.
  destruct (s !! r) as [cells|] eqn:Er; simpl.
  - pose proof (lookup_lt_Some _ _ _ Er) as Hr.
    change (map ?g (seq 0 (columns s))) with (g <$> seq 0 (columns s)).
    rewrite list_lookup_fmap.
    destruct (decide (c < columns s)) as [Hc|Hc].
    + rewrite lookup_seq_lt by done. simpl. by rewrite decide_True.
    + rewrite lookup_seq_ge by lia. simpl. by rewrite decide_False by lia.
  - apply lookup_ge_None in Er. by rewrite decide_False by lia.
Qed.

(** X16: after [move_rows] the frame follows the worksheet: inside the
    table, the frame holds the worksheet's value, or [nan] or [None] where
    the worksheet has no value; so a text is found in the frame exactly
    where the worksheet holds it. *)
Theorem frame_follows_worksheet (self self' : Excel) :
  move_rows self = (Ok tt, self') →
  (∀ r c, r < length (ws self') → c < columns (ws self') →
     ∃ v, cell (df self') r c = Some v
          ∧ (v = cell_value (ws self') (r + 1) (c + 1)
             ∨ (v = Num NaN ∧ cell_value (ws self') (r + 1) (c + 1) = NoneV)))
  ∧ (∀ r c x, cell (df self') r c = Some (Str x) ↔
              cell_value (ws self') (r + 1) (c + 1) = Str x).
Proof.
  intros [_ ->]%move_rows_inv. simpl.
  set (s := move_range (ws self) (status_range (ws self)) 2). split.
  - intros r c Hr Hc. rewrite DataFrame_cell, decide_True by done.
    rewrite !Nat.add_1_r. eexists. split; [done|].
    destruct (cell_value s (S r) (S c)); [by left..|].
    destruct (numeric_column (column_of s c)); [by right|by left].
  - intros r c x. rewrite DataFrame_cell, !Nat.add_1_r. case_decide as Hin.
    + destruct (cell_value s (S r) (S c)) eqn:Ev.
      * split; congruence.
      * split; congruence.
      * destruct (numeric_column (column_of s c)); split; congruence.
    + split; [done|]. intros Hv. exfalso. apply Hin.
      destruct (decide (r < length s)) as [Hr|Hr];
        [|rewrite cell_value_beyond in Hv by lia; done].
      split; [done|].
      destruct (decide (c < columns s)) as [Hc|Hc]; [done|].
      rewrite cell_value_beyond in Hv by lia. done.
Qed.

Lemma frame_follows_worksheet_witness :
  cell (df (after move_rows (init status_sheet))) 15 3 = Some (Str "b")
  ∧ cell_value (ws (after move_rows (init status_sheet))) 16 4 = Str "b".
Proof.
  split; [|reflexivity].
  apply (proj2 (frame_follows_worksheet
                  (init status_sheet) (after move_rows (init status_sheet))
                  ltac:(reflexivity)) 15 3 "b").
  reflexivity.
Defined.

(** ** [modify] as a whole *)

Lemma mark_contamination_metrics_keeps (self self' : Excel) (r : result unit) :
  mark_contamination_metrics self = (r, self') →
  ws self' = ws self ∧ df self' = df self
  ∧ file_exists self' = file_exists self
  ∧ highlighted self ⊆ highlighted self'.
Proof.
  rewrite mark_contamination_metrics_trace.
  intros (_ & Hws & Hdf & Hfile & Hh)%run_trace_inv.
  split_and!; try done. intros p Hp. apply Hh. by right.
Qed.

Lemma mark_other_metrics_keeps (self self' : Excel) (r : result unit) :
  mark_other_metrics self = (r, self') →
  ws self' = ws self ∧ df self' = df self
  ∧ file_exists self' = file_exists self
  ∧ highlighted self ⊆ highlighted self'.
Proof.
  rewrite mark_other_metrics_trace.
  intros (_ & Hws & Hdf & Hfile & Hh)%run_trace_inv.
  split_and!; try done. intros p Hp. apply Hh. by right.
Qed.

Lemma modify_unfold (self : Excel) :
  modify self =
  match move_rows self with
  | (Raise e, s1) => (Raise e, s1)
  | (Ok _, s1) =>
      match mark_false s1 with
      | (Raise e, s2) => (Raise e, s2)
      | (Ok _, s2) =>
          match mark_contamination_metrics s2 with
          | (Raise e, s3) => (Raise e, s3)
          | (Ok _, s3) =>
              match mark_other_metrics s3 with
              | (Raise e, s4) => (Raise e, s4)
              | (Ok _, s4) => (Ok tt, set_file_exists true s4)
              end
          end
      end
  end.
Proof.
  unfold modify, mbind, M_bind, save, modify_self.
  destruct (move_rows self) as [[[]|e] s1]; [|done].
  destruct (mark_false s1) as [[[]|e] s2]; [|done].
  destruct (mark_contamination_metrics s2) as [[[]|e] s3]; [|done].
  by destruct (mark_other_metrics s3) as [[[]|e] s4].
Qed.

(** X17: [modify] returns only on a worksheet of at least 4 columns
    whose normalized table holds the CONTAMINATION_SCORE label and holds
    the text FALSE in row 17 only.  It then leaves the worksheet shifted
    by [move_rows], the frame built from it, the file saved, every FALSE
    cell highlighted and no earlier highlight removed. *)
Theorem modify_returns_only_if (self self' : Excel) :
  modify self = (Ok tt, self') →
  4 ≤ max_column (ws self)
  ∧ ws self' = move_range (ws self) (status_range (ws self)) 2
  ∧ df self' = DataFrame (ws self')
  ∧ file_exists self' = true
  ∧ highlighted self ⊆ highlighted self'
  ∧ (∀ r c, cell (df self') r c = Some (Str "FALSE") →
            r + 1 = 17 ∧ (c + 1, r + 1) ∈ highlighted self')
  ∧ index_of (df self') "CONTAMINATION_SCORE (NA)" ≠ [].
Proof.
  rewrite modify_unfold.
  destruct (move_rows self) as [[[]|e] s1] eqn:E1; [|done].
  destruct (mark_false s1) as [[[]|e] s2] eqn:E2; [|done].
  destruct (mark_contamination_metrics s2) as [[[]|e] s3] eqn:E3; [|done].
  destruct (mark_other_metrics s3) as [[[]|e] s4] eqn:E4; [|done].
  intros [= <-].
  apply move_rows_inv in E1 as [Hcols Hs1].
  pose proof E2 as [(_ & Hall & Hs2)|(? & _)]%mark_false_cases; [|done].
  pose proof (mark_contamination_metrics_keeps _ _ _ E3)
    as (Hws3 & Hdf3 & Hfile3 & Hsub3).
  pose proof (mark_other_metrics_keeps _ _ _ E4)
    as (Hws4 & Hdf4 & Hfile4 & Hsub4).
  assert (ws s2 = ws s1 ∧ df s2 = df s1 ∧ highlighted s1 ⊆ highlighted s2)
    as (Hws2 & Hdf2 & Hsub2).
  { rewrite Hs2. simpl. split_and!; try done.
    intros p Hp. by apply elem_of_union_r. }
  assert (highlighted s1 = highlighted self) as Hh1 by (by rewrite Hs1).
  assert (df s4 = DataFrame (ws s4)) as Hdf.
  { rewrite Hdf4, Hdf3, Hdf2, Hws4, Hws3, Hws2, Hs1. done. }
  simpl. split_and!.
  - done.
  - rewrite Hws4, Hws3, Hws2, Hs1. done.
  - done.
  - done.
  - rewrite <- Hh1. intros p Hp. by apply Hsub4, Hsub3, Hsub2.
  - intros r c Hc. rewrite Hdf4, Hdf3, Hdf2 in Hc. apply index_of_spec in Hc.
    split; [by apply (Hall (r, c))|].
    apply Hsub4, Hsub3. rewrite Hs2. simpl.
    apply elem_of_union_l, elem_of_list_to_set, list_elem_of_In.
    apply in_map_iff. exists (r, c). split; [done|]. by apply list_elem_of_In.
  - rewrite Hdf4, Hdf3. intros Hnone.
    rewrite mark_contamination_metrics_no_label in E3; [done..|].
    rewrite Hdf2, Hs1. simpl. rewrite columns_DataFrame, columns_move_range.
    unfold status_range; simpl. lia.
Qed.

Lemma modify_returns_only_if_witness :
  4 ≤ max_column (ws (init contamination_sheet))
  ∧ file_exists (after modify (init contamination_sheet)) = true.
Proof.
  destruct (modify_returns_only_if
              (init contamination_sheet) (after modify (init contamination_sheet)))
    as (H1 & _ & _ & H2 & _); [reflexivity|]. by split.
Defined.

(** X18: when [modify] raises on an object whose file is on disk, the
    file has been removed exactly when [move_rows] returned and the
    normalized frame holds the text FALSE outside row 17; after any other
    failure the file is still there. *)
Theorem modify_removes_file_only_on_stray_FALSE (self self' : Excel) (e : exn) :
  modify self = (Raise e, self') →
  file_exists self = true →
  file_exists self' = false ↔
  ∃ self1, move_rows self = (Ok tt, self1)
           ∧ ∃ r c, cell (df self1) r c = Some (Str "FALSE") ∧ r + 1 ≠ 17.
Proof.
  rewrite modify_unfold. intros Hrun Hfile.
  destruct (move_rows self) as [[[]|e1] s1] eqn:E1.
  - pose proof E1 as [_ Hs1]%move_rows_inv.
    assert (file_exists s1 = true) as Hfile1 by (by rewrite Hs1).
    destruct (mark_false s1) as [r2 s2] eqn:E2.
    pose proof E2 as [(-> & Hall & Hs2)|(-> & Hbad & Hgone)]%mark_false_cases.
    + assert (file_exists s2 = true) as Hfile2 by (by rewrite Hs2).
      assert (file_exists self' = true) as Hkept.
      { destruct (mark_contamination_metrics s2) as [[[]|e3] s3] eqn:E3.
        - pose proof (mark_contamination_metrics_keeps _ _ _ E3) as (_ & _ & Hf3 & _).
          destruct (mark_other_metrics s3) as [[[]|e4] s4] eqn:E4; [done|].
          pose proof (mark_other_metrics_keeps _ _ _ E4) as (_ & _ & Hf4 & _).
          injection Hrun as _ <-. congruence.
        - pose proof (mark_contamination_metrics_keeps _ _ _ E3) as (_ & _ & Hf3 & _).
          injection Hrun as _ <-. congruence. }
      split; [congruence|].
      intros (self1 & [= <-] & r & c & Hc%index_of_spec & Hne).
      by specialize (Hall _ Hc).
    + injection Hrun as _ <-. split; [|done]. intros _. exists s1. split; [done|].
      destruct Hbad as ([r c] & Hc%index_of_spec & Hne). by exists r, c.
  - destruct (decide (max_column (ws self) < 4)) as [Hlt|Hge].
    + rewrite move_rows_raises in E1 by done. injection E1 as _ <-.
      injection Hrun as _ <-. split; [congruence|]. by intros (? & ? & _).
    + rewrite move_rows_ok in E1 by lia. done.
Qed.

Lemma modify_removes_file_only_on_stray_FALSE_witness :
  file_exists (after modify (init stray_sheet)) = false.
Proof.
  apply (modify_removes_file_only_on_stray_FALSE
           (init stray_sheet) (after modify (init stray_sheet)) TypeError);
    [reflexivity..|].
  exists (after move_rows (init stray_sheet)). split; [reflexivity|].
  exists 0, 0. split; [reflexivity|lia].
Defined.
